(** * Receipt printer bridge: layout engine, receipt builder and spooler transport

    A shallow embedding of the printer bridge's JavaScript sources:
    the receipt formatter (alignText, formatAmount, formatPrice, formatRow,
    buildReceipt) and the Windows spooler transport (querySewooPrinter,
    initPrinter, printReceipt), with the properties of its specification.

    Conventions of the embedding.
    - A JavaScript string is the list of its UTF-16 code units, each a [Z]
      in 0..65535; [length], [substring], [padStart], [repeat] and the
      regular expression [/[가-힣]/g] all work on code units, as
      they do in the source (no regular expression there has the [u] flag).
    - Numbers that the order document carries are integers, modelled as [Z]
      (the doubles of the source are exact on them up to 2^53).  A quotient
      is a [number], which keeps the integral results concrete and leaves
      the rendering of a non-integral double to the host.
    - Built-ins of the runtime and of the operating system that the
      repository does not define are the fields of [Runtime] and [Host].
    - Printer objects live in a heap and are passed by reference, so that
      the instance that the module caches and the object that a caller
      prints are one object, as in the program. *)

From Stdlib Require Import ZArith List String Ascii Lia Bool.
From stdpp Require Import gmap list.
Import ListNotations.
Local Open Scope Z_scope.

(** ** JavaScript strings as UTF-16 code units *)
Module JS.

Abbreviation jsstring := (list Z).

(** Decoding of the UTF-8 bytes of a Rocq string literal into code points,
    so that the literals of the source can be written as they are. *)
Fixpoint utf8_points (bs : list Z) : list Z :=
  match bs with
  | [] => []
  | b1 :: r1 =>
      if b1 <? 0x80 then b1 :: utf8_points r1
      else match r1 with
      | [] => [b1]
      | b2 :: r2 =>
          if b1 <? 0xE0 then ((b1 - 0xC0) * 64 + (b2 - 0x80)) :: utf8_points r2
          else match r2 with
          | [] => [b1]
          | b3 :: r3 =>
              if b1 <? 0xF0
              then ((b1 - 0xE0) * 4096 + (b2 - 0x80) * 64 + (b3 - 0x80))
                     :: utf8_points r3
              else match r3 with
              | [] => [b1]
              | b4 :: r4 =>
                  ((b1 - 0xF0) * 262144 + (b2 - 0x80) * 4096
                   + (b3 - 0x80) * 64 + (b4 - 0x80)) :: utf8_points r4
              end
          end
      end
  end.

(** The UTF-16 code units of one code point. *)
Definition utf16_units (cp : Z) : jsstring :=
  if cp <? 0x10000 then [cp]
  else [0xD800 + (cp - 0x10000) / 0x400; 0xDC00 + (cp - 0x10000) mod 0x400].

(** [lit s] is the JavaScript string written [s] in the source. *)
Definition lit (s : string) : jsstring :=
  flat_map utf16_units
    (utf8_points (map (fun a => Z.of_N (N_of_ascii a)) (list_ascii_of_string s))).

(** [s.length] *)
Definition js_length (s : jsstring) : Z := Z.of_nat (length s).

(** [' '.repeat(n)].  JavaScript raises a RangeError on a negative count;
    every call site of the source passes a count that is positive or
    guarded by [Math.max(0, _)]. *)
Definition spaces (n : Z) : jsstring := replicate (Z.to_nat n) 32.

(** [s.padStart(n, c)] for a one-character filler [c]. *)
Definition padStart (n : Z) (c : Z) (s : jsstring) : jsstring :=
  replicate (Z.to_nat (n - js_length s)) c ++ s.

(** [s.substring(0, n)] for [n >= 0]. *)
Definition substring0 (n : nat) (s : jsstring) : jsstring := firstn n s.

(** [s.startsWith(prefix)] *)
Fixpoint startsWith (prefix s : jsstring) : bool :=
  match prefix, s with
  | [], _ => true
  | _ :: _, [] => false
  | p :: prefix', c :: s' => (p =? c) && startsWith prefix' s'
  end.

(** [s.includes(sub)] *)
Fixpoint includes (sub s : jsstring) : bool :=
  startsWith sub s ||
  match s with
  | [] => false
  | _ :: s' => includes sub s'
  end.

(** The decimal digits of a natural number, as code units. *)
Fixpoint uint_units (u : Decimal.uint) : jsstring :=
  match u with
  | Decimal.Nil => []
  | Decimal.D0 u' => 48 :: uint_units u'
  | Decimal.D1 u' => 49 :: uint_units u'
  | Decimal.D2 u' => 50 :: uint_units u'
  | Decimal.D3 u' => 51 :: uint_units u'
  | Decimal.D4 u' => 52 :: uint_units u'
  | Decimal.D5 u' => 53 :: uint_units u'
  | Decimal.D6 u' => 54 :: uint_units u'
  | Decimal.D7 u' => 55 :: uint_units u'
  | Decimal.D8 u' => 56 :: uint_units u'
  | Decimal.D9 u' => 57 :: uint_units u'
  end.

(** [String(z)] for an integer [z]. *)
Definition String_int (z : Z) : jsstring :=
  match Z.to_int z with
  | Decimal.Pos u => uint_units u
  | Decimal.Neg u => 45 :: uint_units u
  end.

(** Thousands separators, working on the reversed digits: [k] digits are
    still due before the next comma. *)
Fixpoint groupRev (r : jsstring) (k : nat) : jsstring :=
  match r with
  | [] => []
  | c :: r' =>
      match k with
      | O => 44 :: c :: groupRev r' 2
      | S k' => c :: groupRev r' k'
      end
  end.

(** [z.toLocaleString('ko-KR')] for an integer [z]: a minus sign, and the
    digits in groups of three separated by commas. *)
Definition toLocaleString_int (z : Z) : jsstring :=
  (if z <? 0 then [45] else [])
    ++ rev (groupRev (rev (String_int (Z.abs z))) 3).

(** A digit, a comma or a minus sign. *)
Definition isNumeric (c : Z) : Prop := c = 44 \/ c = 45 \/ 48 <= c <= 57.

(** [JUndefined] and [JNull] are the two nullish values of a field. *)
Inductive nullable (A : Type) : Type :=
| JUndefined
| JNull
| JVal (a : A).
Arguments JUndefined {A}.
Arguments JNull {A}.
Arguments JVal {A} a.

(** [x != null] *)
Definition notNull {A} (x : nullable A) : bool :=
  match x with JVal _ => true | _ => false end.

(** [x ?? d] *)
Definition nullish_or {A} (x : nullable A) (d : A) : A :=
  match x with JVal a => a | _ => d end.

(** [String(x)] for a nullable integer. *)
Definition String_nullable (x : nullable Z) : jsstring :=
  match x with
  | JUndefined => lit "undefined"
  | JNull => lit "null"
  | JVal z => String_int z
  end.

(** Truthiness of a nullable string: absent and empty strings are falsy. *)
Definition truthy_str (x : nullable jsstring) : bool :=
  match x with
  | JVal (_ :: _) => true
  | _ => false
  end.

(** The value of a division of two integers, [a / b] in the source.
    [NFrac a b] is a quotient that is not an integer. *)
Inductive number : Type :=
| NInt (z : Z)
| NNegZero
| NFrac (a b : Z)
| NInfinity (negative : bool)
| NNaN.

Definition js_div (a b : Z) : number :=
  if b =? 0 then
    (if a =? 0 then NNaN else NInfinity (a <? 0))
  else if a =? 0 then
    (if b <? 0 then NNegZero else NInt 0)
  else if a mod b =? 0 then NInt (a / b)
  else NFrac a b.

(** What the runtime provides and the repository does not define. *)
Record Runtime : Type := {
  (** [String(x)] of a non-integral double, the quotient of [a] by [b] *)
  fracToString : Z -> Z -> jsstring;
  (** [x.toLocaleString('ko-KR')] of a non-integral double *)
  fracToLocaleString : Z -> Z -> jsstring;
  (** [s.toUpperCase()] *)
  toUpperCase : jsstring -> jsstring;
  (** the local calendar fields of [new Date(s)]: year, month (from 0),
      day, hours, minutes, seconds; [None] for an invalid date *)
  localDate : jsstring -> option (Z * Z * Z * Z * Z * Z)
}.

Definition String_number (rt : Runtime) (x : number) : jsstring :=
  match x with
  | NInt z => String_int z
  | NNegZero => lit "0"
  | NFrac a b => fracToString rt a b
  | NInfinity false => lit "Infinity"
  | NInfinity true => lit "-Infinity"
  | NNaN => lit "NaN"
  end.

Definition toLocaleString (rt : Runtime) (x : number) : jsstring :=
  match x with
  | NInt z => toLocaleString_int z
  | NNegZero => lit "-0"
  | NFrac a b => fracToLocaleString rt a b
  | NInfinity false => lit "∞"
  | NInfinity true => lit "-∞"
  | NNaN => lit "NaN"
  end.

End JS.
Import JS.

(** ** The layout engine *)
Module Layout.

(** One code unit matches [/[가-힣]/]. *)
Definition isKorean (c : Z) : bool := (0xAC00 <=? c) && (c <=? 0xD7A3).

(** [(text.match(/[가-힣]/g) || []).length] *)
Definition koreanCount (text : jsstring) : Z :=
  js_length (List.filter isKorean text).

(** [text.length + koreanCount] *)
Definition actualWidth (text : jsstring) : Z :=
  js_length text + koreanCount text.

Definition s_center : jsstring := Eval vm_compute in lit "center".
Definition s_right : jsstring := Eval vm_compute in lit "right".
Definition s_left : jsstring := Eval vm_compute in lit "left".

(** [alignText(text, align, width)] *)
Definition alignText (text align : jsstring) (width : Z) : jsstring :=
  let actualWidth := actualWidth text in
  if width <=? actualWidth then text
  else
    let padding := width - actualWidth in
    if bool_decide (align = s_center) then
      let leftPad := padding / 2 in
      let rightPad := padding - leftPad in
      spaces leftPad ++ text ++ spaces rightPad
    else if bool_decide (align = s_right) then
      spaces padding ++ text
    else
      text ++ spaces padding.

(** The currency suffix, U+C6D0. *)
Definition s_won : jsstring := Eval vm_compute in lit "원".

(** [formatAmount(amount)] *)
Definition formatAmount (amount : Z) : jsstring :=
  toLocaleString_int amount ++ s_won.

(** [formatPrice(amount, width)] *)
Definition formatPrice (amount : Z) (width : Z) : jsstring :=
  let formatted := formatAmount amount in
  let padding := Z.max 0 (width - js_length formatted) in
  spaces padding ++ formatted.

(** [formatRow(label, value, width)] *)
Definition formatRow (label value : jsstring) (width : Z) : jsstring :=
  let labelWidth := js_length label + koreanCount label in
  let valueWidth := js_length value + koreanCount value in
  let padding := Z.max 0 (width - labelWidth - valueWidth) in
  label ++ spaces padding ++ value.

(** The visual width that the specification words describe, one code
    point at a time: a well-formed surrogate pair is one code point. *)
Definition isHighSurrogate (c : Z) : bool := (0xD800 <=? c) && (c <=? 0xDBFF).
Definition isLowSurrogate (c : Z) : bool := (0xDC00 <=? c) && (c <=? 0xDFFF).

Fixpoint codePoints (s : jsstring) : list Z :=
  match s with
  | [] => []
  | c :: rest =>
      match rest with
      | lo :: rest' =>
          if isHighSurrogate c && isLowSurrogate lo
          then (0x10000 + (c - 0xD800) * 0x400 + (lo - 0xDC00)) :: codePoints rest'
          else c :: codePoints rest
      | [] => [c]
      end
  end.

(** Two cells for a precomposed syllable, one cell for anything else. *)
Definition cellsOf (c : Z) : Z := if isKorean c then 2 else 1.

Fixpoint sumCells (cs : list Z) : Z :=
  match cs with
  | [] => 0
  | c :: rest => cellsOf c + sumCells rest
  end.

(** Visual width counting code points, as the specification words it. *)
Definition visualWidth_codePoints (s : jsstring) : Z := sumCells (codePoints s).

(** Visual width counting UTF-16 code units. *)
Definition visualWidth (s : jsstring) : Z := sumCells s.

End Layout.
Import Layout.

(** ** The receipt builder *)
Module Receipt.

(** One ordered product: [{ productName, quantity, amount }]. *)
Record LineItem : Type := {
  productName : jsstring;
  quantity : Z;
  amount : Z
}.

(** The order document that [buildReceipt] destructures. *)
Record ReceiptData : Type := {
  orderId : Z;
  displayCode : nullable jsstring;
  paidAt : jsstring;
  deliveryHour : nullable Z;
  deliveryMinute : nullable Z;
  buyerName : jsstring;
  phone : jsstring;
  items : list LineItem;
  totalProductAmount : Z;
  deliveryFee : Z;
  distanceKm : number;
  address1 : jsstring;
  address2 : nullable jsstring;
  scheduledDeliveryHour : nullable Z;
  scheduledDeliveryMinute : nullable Z
}.

(** The calls that fill the buffer of a printer object.  All but the
    first are the calls of the builder.  [SetCharacterSet] is the call
    that the printer library makes by itself for the configured character
    set, [PC437_USA]: it puts the three bytes 1B 74 00 of the code-page
    command in the buffer.  The library is not part of the repository;
    this is its observed behaviour. *)
Inductive PrinterOp : Type :=
| SetCharacterSet
| AlignCenter
| AlignLeft
| DrawLine
| SetTextQuadArea
| SetTextNormal
| SetTextDoubleHeight
| Bold (on : bool)
| Println (text : jsstring)
| NewLine
| Cut.

(** The printer object: its device path and its command buffer, [None]
    being a buffer that is [null]. *)
Record Printer : Type := {
  interface : jsstring;
  buffer : option (list PrinterOp)
}.

(** Each call appends to the buffer. *)
Definition printer_call (p : Printer) (op : PrinterOp) : Printer :=
  {| interface := interface p;
     buffer := Some (match buffer p with
                     | Some ops => ops ++ [op]
                     | None => [op]
                     end) |}.

(** What the library leaves in the buffer of an object that it constructs
    or clears: the code-page command of the character set, not [null].
    Behaviour of the library, which is not part of the repository. *)
Definition prelude : list PrinterOp := [SetCharacterSet].

(** [new ThermalPrinter({ interface: path, characterSet: 'PC437_USA', ... })] *)
Definition newThermalPrinter (path : jsstring) : Printer :=
  {| interface := path; buffer := Some prelude |}.

(** [printer.clear()] *)
Definition printer_clear (p : Printer) : Printer :=
  {| interface := interface p; buffer := Some prelude |}.

(** [String(x).padStart(2, '0')] *)
Definition pad2 (s : jsstring) : jsstring := padStart 2 48 s.

(** [const isScheduled = scheduledDeliveryHour != null] *)
Definition isScheduled (data : ReceiptData) : bool :=
  notNull (scheduledDeliveryHour data).

(** The order date, from the local calendar fields of [new Date(paidAt)]. *)
Definition orderDate (rt : Runtime) (data : ReceiptData) : jsstring :=
  match localDate rt (paidAt data) with
  | Some (year, month, day, hours, minutes, seconds) =>
      String_int year ++ lit "-" ++ pad2 (String_int (month + 1)) ++ lit "-"
        ++ pad2 (String_int day) ++ lit " " ++ pad2 (String_int hours) ++ lit ":"
        ++ pad2 (String_int minutes) ++ lit ":" ++ pad2 (String_int seconds)
  | None =>
      lit "NaN" ++ lit "-" ++ pad2 (lit "NaN") ++ lit "-" ++ pad2 (lit "NaN")
        ++ lit " " ++ pad2 (lit "NaN") ++ lit ":" ++ pad2 (lit "NaN") ++ lit ":"
        ++ pad2 (lit "NaN")
  end.

Definition deliveryTime (data : ReceiptData) : jsstring :=
  pad2 (String_nullable (deliveryHour data)) ++ lit ":"
    ++ pad2 (String_nullable (deliveryMinute data)).

(** [const totalAmount = totalProductAmount + deliveryFee] *)
Definition totalAmount (data : ReceiptData) : Z :=
  totalProductAmount data + deliveryFee data.

Definition scheduledTime (data : ReceiptData) : option jsstring :=
  if isScheduled data
  then Some (pad2 (String_nullable (scheduledDeliveryHour data)) ++ lit ":"
             ++ pad2 (String_int (nullish_or (scheduledDeliveryMinute data) 0)))
  else None.

(** A template literal renders [null] as the text null. *)
Definition interpolate (s : option jsstring) : jsstring :=
  match s with
  | Some t => t
  | None => lit "null"
  end.

(** The body of [items.forEach]: the four fields of one row. *)
Definition unitPrice (item : LineItem) : number :=
  js_div (amount item) (quantity item).

Definition truncatedName (item : LineItem) : jsstring :=
  let nameMaxWidth := 14 in
  let nameKoreanCount := koreanCount (productName item) in
  let nameActualWidth := js_length (productName item) + nameKoreanCount in
  if nameMaxWidth <? nameActualWidth
  then substring0 7 (productName item)
  else productName item.

Definition nameField (item : LineItem) : jsstring :=
  let truncatedName := truncatedName item in
  let namePadding := 14 - (js_length truncatedName + koreanCount truncatedName) in
  truncatedName ++ spaces (Z.max 0 namePadding).

Definition qtyField (item : LineItem) : jsstring :=
  padStart 3 32 (String_int (quantity item)).

Definition unitField (rt : Runtime) (item : LineItem) : jsstring :=
  padStart 7 32 (toLocaleString rt (unitPrice item)).

Definition amtField (item : LineItem) : jsstring :=
  padStart 8 32 (toLocaleString_int (amount item)).

Definition itemRow (rt : Runtime) (item : LineItem) : jsstring :=
  nameField item ++ qtyField item ++ unitField rt item ++ amtField item.

Definition s_rule : jsstring :=
  Eval vm_compute in lit "--------------------------------".

(** The header: the shop name in quad-sized bold text between two rules. *)
Definition headerBlock : list PrinterOp :=
  [ AlignCenter; DrawLine; SetTextQuadArea; Bold true;
    Println (lit "과일맛집1995");
    Bold false; SetTextNormal; AlignLeft; DrawLine ].

(** [if (isScheduled) { ... }]: the scheduled-delivery banner. *)
Definition scheduledBanner (data : ReceiptData) : list PrinterOp :=
  if isScheduled data then
    [ AlignCenter; SetTextDoubleHeight; Bold true;
      Println (lit "** " ++ interpolate (scheduledTime data) ++ lit " 예약배달 **");
      Bold false; SetTextNormal; AlignLeft ]
  else [].

Definition orderLabel (data : ReceiptData) : jsstring :=
  if truthy_str (displayCode data)
  then nullish_or (displayCode data) []
  else lit "#" ++ String_int (orderId data).

(** The arrival line of a scheduled order, else the delivery-time line. *)
Definition deliveryLine (data : ReceiptData) : list PrinterOp :=
  if isScheduled data then
    [ Bold true;
      Println (lit "도착예정: " ++ interpolate (scheduledTime data));
      Bold false ]
  else if notNull (deliveryHour data) && notNull (deliveryMinute data) then
    [ Bold true;
      Println (lit "배달예정: " ++ deliveryTime data);
      Bold false ]
  else [].

Definition orderBlock (rt : Runtime) (data : ReceiptData) : list PrinterOp :=
  [ Println (lit "[주문정보]"); SetTextDoubleHeight; Bold true;
    Println (orderLabel data);
    Bold false; SetTextNormal;
    Println (lit "주문일시: " ++ orderDate rt data) ]
    ++ deliveryLine data
    ++ [ Println s_rule ].

Definition customerBlock (data : ReceiptData) : list PrinterOp :=
  [ Println (lit "[고객정보]"); SetTextDoubleHeight; Bold true;
    Println (buyerName data ++ lit " / " ++ phone data);
    Bold false; SetTextNormal; NewLine ].

Definition addressBlock (data : ReceiptData) : list PrinterOp :=
  [ Println (lit "[배달주소]"); SetTextDoubleHeight; Bold true;
    Println (address1 data) ]
    ++ (if truthy_str (address2 data)
        then [ Println (nullish_or (address2 data) []) ]
        else [])
    ++ [ Bold false; SetTextNormal; Println s_rule ].

Definition itemTable (rt : Runtime) (data : ReceiptData) : list PrinterOp :=
  Println (lit "상품명       수량   가격    총합")
    :: map (fun item => Println (itemRow rt item)) (items data)
    ++ [ Println s_rule ].

Definition s_subtotalLabel : jsstring := Eval vm_compute in lit "상품합계:".
Definition s_totalLabel : jsstring := Eval vm_compute in lit "합계:".

Definition feeLabel (rt : Runtime) (data : ReceiptData) : jsstring :=
  lit "배달비(" ++ String_number rt (distanceKm data) ++ lit "km):".

Definition subtotalRows (rt : Runtime) (data : ReceiptData) : list PrinterOp :=
  [ Bold true;
    Println (formatRow s_subtotalLabel (formatAmount (totalProductAmount data)) 32);
    Println (formatRow (feeLabel rt data) (formatAmount (deliveryFee data)) 32);
    Bold false; DrawLine ].

(** The grand total, in quad-sized bold centred text. *)
Definition grandTotal (data : ReceiptData) : list PrinterOp :=
  [ AlignCenter; SetTextQuadArea; Bold true;
    Println (formatRow s_totalLabel (formatAmount (totalAmount data)) 16);
    Bold false; SetTextNormal; AlignLeft; DrawLine ].

Definition trailer : list PrinterOp := [ NewLine; NewLine; NewLine; Cut ].

(** The calls of [buildReceipt(printer, data)], in order. *)
Definition receiptScript (rt : Runtime) (data : ReceiptData) : list PrinterOp :=
  headerBlock ++ scheduledBanner data ++ orderBlock rt data
    ++ customerBlock data ++ addressBlock data ++ itemTable rt data
    ++ subtotalRows rt data ++ grandTotal data ++ trailer.

(** [buildReceipt(printer, data)] *)
Definition buildReceipt (rt : Runtime) (printer : Printer) (data : ReceiptData)
  : Printer :=
  fold_left printer_call (receiptScript rt data) printer.

(** *** What the paper shows

    The printer keeps an alignment, a text size and the emphasis as
    modes; every printed text line carries the modes of its moment. *)
Inductive Alignment : Type := ALeft | ACenter.
Inductive TextSize : Type := SizeNormal | SizeDoubleHeight | SizeQuadArea.

Record Style : Type := {
  styleAlign : Alignment;
  styleSize : TextSize;
  styleBold : bool
}.

Definition applyOp (st : Style) (op : PrinterOp) : Style :=
  match op with
  | AlignCenter => {| styleAlign := ACenter; styleSize := styleSize st; styleBold := styleBold st |}
  | AlignLeft => {| styleAlign := ALeft; styleSize := styleSize st; styleBold := styleBold st |}
  | SetTextQuadArea => {| styleAlign := styleAlign st; styleSize := SizeQuadArea; styleBold := styleBold st |}
  | SetTextNormal => {| styleAlign := styleAlign st; styleSize := SizeNormal; styleBold := styleBold st |}
  | SetTextDoubleHeight => {| styleAlign := styleAlign st; styleSize := SizeDoubleHeight; styleBold := styleBold st |}
  | Bold on => {| styleAlign := styleAlign st; styleSize := styleSize st; styleBold := on |}
  | SetCharacterSet | DrawLine | Println _ | NewLine | Cut => st
  end.

(** The text lines of a run of calls, each with its style. *)
Fixpoint printedLines (st : Style) (ops : list PrinterOp) : list (Style * jsstring) :=
  match ops with
  | [] => []
  | Println text :: rest => (st, text) :: printedLines st rest
  | op :: rest => printedLines (applyOp st op) rest
  end.

(** The scheduled-delivery banner is the centred, double-height, bold
    line of the receipt. *)
Definition isBannerLine (line : Style * jsstring) : bool :=
  match styleAlign (fst line), styleSize (fst line), styleBold (fst line) with
  | ACenter, SizeDoubleHeight, true => true
  | _, _, _ => false
  end.

(** A bold line of normal size at the left that starts with [label]. *)
Definition isBoldLineWith (label : jsstring) (line : Style * jsstring) : bool :=
  match styleAlign (fst line), styleSize (fst line), styleBold (fst line) with
  | ALeft, SizeNormal, true => startsWith label (snd line)
  | _, _, _ => false
  end.

Definition s_deliveryLabel : jsstring := Eval vm_compute in lit "배달예정: ".
Definition s_arrivalLabel : jsstring := Eval vm_compute in lit "도착예정: ".

(** The banner lines and the plain delivery-time lines of a receipt. *)
Definition bannerLines (st : Style) (ops : list PrinterOp) : list jsstring :=
  map snd (List.filter isBannerLine (printedLines st ops)).

Definition plainDeliveryLines (st : Style) (ops : list PrinterOp) : list jsstring :=
  map snd (List.filter (isBoldLineWith s_deliveryLabel) (printedLines st ops)).

Definition arrivalLines (st : Style) (ops : list PrinterOp) : list jsstring :=
  map snd (List.filter (isBoldLineWith s_arrivalLabel) (printedLines st ops)).

(** The grand total is the quad-sized line that starts with its label. *)
Definition isTotalLine (line : Style * jsstring) : bool :=
  match styleSize (fst line) with
  | SizeQuadArea => startsWith s_totalLabel (snd line)
  | _ => false
  end.

Definition totalLines (st : Style) (ops : list PrinterOp) : list jsstring :=
  map snd (List.filter isTotalLine (printedLines st ops)).

(** The five styles of a receipt. *)
Definition stTitle : Style :=
  {| styleAlign := ACenter; styleSize := SizeQuadArea; styleBold := true |}.
Definition stBanner : Style :=
  {| styleAlign := ACenter; styleSize := SizeDoubleHeight; styleBold := true |}.
Definition stPlain : Style :=
  {| styleAlign := ALeft; styleSize := SizeNormal; styleBold := false |}.
Definition stStrong : Style :=
  {| styleAlign := ALeft; styleSize := SizeNormal; styleBold := true |}.
Definition stTall : Style :=
  {| styleAlign := ALeft; styleSize := SizeDoubleHeight; styleBold := true |}.

(** The text of the banner and of the two lines about the delivery. *)
Definition bannerText (time : jsstring) : jsstring :=
  lit "** " ++ time ++ lit " 예약배달 **".

(** The lines of a receipt with their styles, block by block. *)
Definition receiptLines (rt : Runtime) (data : ReceiptData)
    : list (Style * jsstring) :=
  [ (stTitle, lit "과일맛집1995") ]
    ++ (if isScheduled data
        then [ (stBanner, bannerText (interpolate (scheduledTime data))) ]
        else [])
    ++ [ (stPlain, lit "[주문정보]");
         (stTall, orderLabel data);
         (stPlain, lit "주문일시: " ++ orderDate rt data) ]
    ++ (if isScheduled data
        then [ (stStrong, lit "도착예정: " ++ interpolate (scheduledTime data)) ]
        else if notNull (deliveryHour data) && notNull (deliveryMinute data)
        then [ (stStrong, lit "배달예정: " ++ deliveryTime data) ]
        else [])
    ++ [ (stPlain, s_rule);
         (stPlain, lit "[고객정보]");
         (stTall, buyerName data ++ lit " / " ++ phone data);
         (stPlain, lit "[배달주소]");
         (stTall, address1 data) ]
    ++ (if truthy_str (address2 data)
        then [ (stTall, nullish_or (address2 data) []) ]
        else [])
    ++ [ (stPlain, s_rule);
         (stPlain, lit "상품명       수량   가격    총합") ]
    ++ map (fun item => (stPlain, itemRow rt item)) (items data)
    ++ [ (stPlain, s_rule);
         (stStrong, formatRow s_subtotalLabel (formatAmount (totalProductAmount data)) 32);
         (stStrong, formatRow (feeLabel rt data) (formatAmount (deliveryFee data)) 32);
         (stTitle, formatRow s_totalLabel (formatAmount (totalAmount data)) 16) ].

End Receipt.
Import Receipt.

(** ** Printer discovery, the connection singleton and the spooler transport *)
Module Transport.

(** The result of [execSync]: the standard output of the command, or the
    error that it throws (a nonzero exit, a timeout, a launch failure). *)
Inductive ExecResult : Type :=
| ExecOk (stdout : jsstring)
| ExecErr (message : jsstring).

(** What the operating system provides: processes, the clock, the
    temporary directory, and whether a file operation fails (with the
    message of its error). *)
Record Host : Type := {
  runCommand : jsstring -> ExecResult;
  tmpdir : jsstring;
  pathJoin : jsstring -> jsstring -> jsstring;
  dateNow : Z;
  writeError : jsstring -> option jsstring;
  unlinkError : jsstring -> option jsstring
}.

(** The content of a file that the module writes. *)
Inductive FileData : Type :=
| RawPrintScript
| StagedBuffer (ops : list PrinterOp).

(** The state of the program.  [heap] holds the printer objects; a
    reference to a printer object is its index in the heap, and an object
    is created at the end of the heap.  [printerInstance],
    [sewooPrinterName] and [rawPrintScriptPath] are the variables of the
    module, the first a reference.  [files] is the disk.  The last two
    fields record what the program hands to the system, the latest last:
    [spawned] the command lines given to [execSync], and [jobs] what the
    staged file held at each submission to the spooler. *)
Record State : Type := {
  printerInstance : option nat;
  heap : list Printer;
  sewooPrinterName : option jsstring;
  rawPrintScriptPath : option jsstring;
  files : gmap jsstring FileData;
  spawned : list jsstring;
  jobs : list (option FileData)
}.

Definition set_files (st : State) (fs : gmap jsstring FileData) : State :=
  {| printerInstance := printerInstance st;
     heap := heap st;
     sewooPrinterName := sewooPrinterName st;
     rawPrintScriptPath := rawPrintScriptPath st;
     files := fs;
     spawned := spawned st;
     jobs := jobs st |}.

(** The object that a reference denotes. *)
Definition printerAt (st : State) (printer : nat) : option Printer :=
  heap st !! printer.

(** A call that changes the printer object behind a reference; every
    holder of the reference sees the change. *)
Definition on_printer (printer : nat) (f : Printer -> Printer) (st : State) : State :=
  {| printerInstance := printerInstance st;
     heap := alter f printer (heap st);
     sewooPrinterName := sewooPrinterName st;
     rawPrintScriptPath := rawPrintScriptPath st;
     files := files st;
     spawned := spawned st;
     jobs := jobs st |}.

(** [execSync(command, ...)] *)
Definition execSync (os : Host) (command : jsstring) (st : State)
    : ExecResult * State :=
  (runCommand os command,
   {| printerInstance := printerInstance st;
      heap := heap st;
      sewooPrinterName := sewooPrinterName st;
      rawPrintScriptPath := rawPrintScriptPath st;
      files := files st;
      spawned := spawned st ++ [command];
      jobs := jobs st |}).

(** The record of a submission: what the file at [path] holds when the
    spooler command is started. *)
Definition record_job (path : jsstring) (st : State) : State :=
  {| printerInstance := printerInstance st;
     heap := heap st;
     sewooPrinterName := sewooPrinterName st;
     rawPrintScriptPath := rawPrintScriptPath st;
     files := files st;
     spawned := spawned st;
     jobs := jobs st ++ [files st !! path] |}.

(** A call returns a value or throws an error with a message. *)
Inductive Completion (A : Type) : Type :=
| Returned (a : A)
| Thrown (message : jsstring).
Arguments Returned {A} a.
Arguments Thrown {A} message.

(** [writeFileSync(path, data)] *)
Definition writeFileSync (os : Host) (path : jsstring) (data : FileData)
    (st : State) : Completion unit * State :=
  match writeError os path with
  | Some message => (Thrown message, st)
  | None => (Returned tt, set_files st (<[path := data]> (files st)))
  end.

(** [existsSync(path)] *)
Definition existsSync (path : jsstring) (st : State) : bool :=
  match files st !! path with
  | Some _ => true
  | None => false
  end.

Definition s_ENOENT : jsstring := Eval vm_compute in lit "ENOENT".

(** [unlinkSync(path)]: a missing file and a failing removal both throw. *)
Definition unlinkSync (os : Host) (path : jsstring) (st : State)
    : Completion unit * State :=
  match files st !! path with
  | None => (Thrown s_ENOENT, st)
  | Some _ =>
      match unlinkError os path with
      | Some message => (Thrown message, st)
      | None => (Returned tt, set_files st (delete path (files st)))
      end
  end.

Definition s_scriptName : jsstring := Eval vm_compute in lit "onuljang-raw-print.ps1".

(** [ensureRawPrintScript()] *)
Definition ensureRawPrintScript (os : Host) (st : State)
    : Completion jsstring * State :=
  let cached :=
    match rawPrintScriptPath st with
    | Some (c :: p) => if existsSync (c :: p) st then Some (c :: p) else None
    | _ => None
    end in
  match cached with
  | Some path => (Returned path, st)
  | None =>
      let path := pathJoin os (tmpdir os) s_scriptName in
      let st1 := {| printerInstance := printerInstance st;
                    heap := heap st;
                    sewooPrinterName := sewooPrinterName st;
                    rawPrintScriptPath := Some path;
                    files := files st;
                    spawned := spawned st;
                    jobs := jobs st |} in
      match writeFileSync os path RawPrintScript st1 with
      | (Thrown message, st2) => (Thrown message, st2)
      | (Returned _, st2) => (Returned path, st2)
      end
  end.

(** [fields.join(',')] *)
Fixpoint joinComma (fields : list jsstring) : jsstring :=
  match fields with
  | [] => []
  | [f] => f
  | f :: rest => f ++ 44 :: joinComma rest
  end.

Definition wmicCommand (fields : list jsstring) : jsstring :=
  lit "wmic printer get " ++ joinComma fields ++ lit " /format:csv".

(** White space and line terminators, which [trim] strips. *)
Definition isWhiteSpace (c : Z) : bool :=
  ((9 <=? c) && (c <=? 13)) || (c =? 32) || (c =? 0xA0) || (c =? 0x1680)
  || ((0x2000 <=? c) && (c <=? 0x200A)) || (c =? 0x2028) || (c =? 0x2029)
  || (c =? 0x202F) || (c =? 0x205F) || (c =? 0x3000) || (c =? 0xFEFF).

Fixpoint trimStart (s : jsstring) : jsstring :=
  match s with
  | [] => []
  | c :: rest => if isWhiteSpace c then trimStart rest else s
  end.

(** [s.trim()] *)
Definition trim (s : jsstring) : jsstring :=
  rev (trimStart (rev (trimStart s))).

(** [s.split(sep)] for a one-character separator. *)
Fixpoint split (sep : Z) (s : jsstring) : list jsstring :=
  match s with
  | [] => [[]]
  | c :: rest =>
      if c =? sep then [] :: split sep rest
      else match split sep rest with
           | cur :: more => (c :: cur) :: more
           | [] => [[c]]
           end
  end.

(** One code unit matches [/[A-Za-z0-9]/]. *)
Definition isAlphaNum (c : Z) : bool :=
  ((65 <=? c) && (c <=? 90)) || ((97 <=? c) && (c <=? 122))
  || ((48 <=? c) && (c <=? 57)).

Definition s_SEWOO : jsstring := Eval vm_compute in lit "SEWOO".

(** The value that [querySewooPrinter] extracts from the output of the
    query: [None] is the [null] of the source; a missing column makes
    [replace] throw inside the [try], which gives [null] too. *)
Definition extractColumn (rt : Runtime) (result : jsstring)
    (targetIndex : nat) (cleanAlphaNum : bool) : option jsstring :=
  let lines := split 10 (trim result) in
  match List.find (fun line => includes s_SEWOO (toUpperCase rt line)) lines with
  | None => None
  | Some line =>
      let columns := split 44 line in
      match nth_error columns targetIndex with
      | None => None
      | Some column =>
          let value :=
            if cleanAlphaNum then List.filter isAlphaNum column
            else trim (List.filter (fun c => negb (c =? 13)) column) in
          match value with
          | [] => None
          | _ :: _ => Some value
          end
      end
  end.

(** [querySewooPrinter(fields, targetIndex, cleanAlphaNum)] *)
Definition querySewooPrinter (rt : Runtime) (os : Host)
    (fields : list jsstring) (targetIndex : nat) (cleanAlphaNum : bool)
    (st : State) : option jsstring * State :=
  match execSync os (wmicCommand fields) st with
  | (ExecErr _, st1) => (None, st1)
  | (ExecOk result, st1) => (extractColumn rt result targetIndex cleanAlphaNum, st1)
  end.

Definition findPrinterPort (rt : Runtime) (os : Host) (st : State)
    : option jsstring * State :=
  querySewooPrinter rt os [lit "Name"; lit "PortName"] 2 true st.

Definition findPrinterName (rt : Runtime) (os : Host) (st : State)
    : option jsstring * State :=
  querySewooPrinter rt os [lit "Name"] 1 false st.

Definition s_LPT1 : jsstring := Eval vm_compute in lit "LPT1".
Definition s_devicePrefix : jsstring := Eval vm_compute in lit "\\.\".
Definition s_defaultName : jsstring := Eval vm_compute in lit "SEWOO SLK-TS 100".

(** [initPrinter()]: the reference of the cached instance, or of a new
    object for the discovered port, [LPT1] when no port was found. *)
Definition initPrinter (rt : Runtime) (os : Host) (st : State) : nat * State :=
  match printerInstance st with
  | Some printer => (printer, st)
  | None =>
      let '(port, st1) := findPrinterPort rt os st in
      let '(name, st2) := findPrinterName rt os st1 in
      let interfacePath :=
        s_devicePrefix ++ (match port with Some p => p | None => s_LPT1 end) in
      let printer := length (heap st2) in
      (printer,
       {| printerInstance := Some printer;
          heap := heap st2 ++ [newThermalPrinter interfacePath];
          sewooPrinterName := name;
          rawPrintScriptPath := rawPrintScriptPath st2;
          files := files st2;
          spawned := spawned st2;
          jobs := jobs st2 |})
  end.

(** [sewooPrinterName || 'SEWOO SLK-TS 100'] *)
Definition targetName (st : State) : jsstring :=
  match sewooPrinterName st with
  | Some (c :: n) => c :: n
  | _ => s_defaultName
  end.

(** [const tmpBin = join(tmpdir(), `receipt-${Date.now()}.bin`)]: the path
    of the staged byte file of an attempt. *)
Definition tmpBin (os : Host) : jsstring :=
  pathJoin os (tmpdir os) (lit "receipt-" ++ String_int (dateNow os) ++ lit ".bin").

(** The command line of the spooler submission. *)
Definition spoolCommand (scriptPath tmpBin name : jsstring) : jsstring :=
  lit "powershell -ExecutionPolicy Bypass -File " ++ [34] ++ scriptPath ++ [34]
    ++ lit " -FilePath " ++ [34] ++ tmpBin ++ [34]
    ++ lit " -PrinterName " ++ [34] ++ name ++ [34].

Definition s_noData : jsstring := Eval vm_compute in lit "출력할 데이터가 없습니다".
Definition s_printError : jsstring := Eval vm_compute in lit "프린터 출력 오류: ".

(** The error of a method call on a value that is no printer object.  A
    reference outside the heap stands for such an argument. *)
Definition s_notAnObject : jsstring :=
  Eval vm_compute in lit "Cannot read properties of undefined (reading 'getBuffer')".

(** [printReceipt(printer)]: the completion and the state after the call.
    The buffer is read and cleared in the object that [printer] refers
    to. *)
Definition printReceipt (os : Host) (printer : nat) (st : State)
    : Completion unit * State :=
  match printerAt st printer with
  | None => (Thrown s_notAnObject, st)
  | Some object =>
      match buffer object with
      | None => (Thrown s_noData, st)
      | Some buf =>
          let name := targetName st in
          match ensureRawPrintScript os st with
          | (Thrown message, st1) => (Thrown message, st1)
          | (Returned scriptPath, st1) =>
              match writeFileSync os (tmpBin os) (StagedBuffer buf) st1 with
              | (Thrown message, st2) => (Thrown message, st2)
              | (Returned _, st2) =>
                  (* try { execSync(...); printer.clear() } catch (error) { throw ... } *)
                  let '(completion, st3) :=
                    match execSync os (spoolCommand scriptPath (tmpBin os) name)
                            (record_job (tmpBin os) st2) with
                    | (ExecOk _, st3) =>
                        (Returned tt, on_printer printer printer_clear st3)
                    | (ExecErr message, st3) =>
                        (Thrown (s_printError ++ message), st3)
                    end in
                  (* finally { try { unlinkSync(tmpBin) } catch (e) {} } *)
                  let st4 := snd (unlinkSync os (tmpBin os) st3) in
                  (completion, st4)
              end
          end
      end
  end.

(** [closePrinter()] *)
Definition closePrinter (st : State) : State :=
  {| printerInstance := None;
     heap := heap st;
     sewooPrinterName := sewooPrinterName st;
     rawPrintScriptPath := rawPrintScriptPath st;
     files := files st;
     spawned := spawned st;
     jobs := jobs st |}.

End Transport.
Import Transport.

(** ** Sample environments, for the concrete runs *)
Module Samples.

(** Upper case of the ASCII letters, which is what [toUpperCase] does on
    ASCII text. *)
Definition asciiUpper (s : jsstring) : jsstring :=
  map (fun c => if (97 <=? c) && (c <=? 122) then c - 32 else c) s.

(** A runtime for the concrete runs; they render no non-integral number,
    and the date of the sample is 12 February 2026, 02:08:03. *)
Definition sampleRuntime : Runtime :=
  {| fracToString := fun _ _ => [];
     fracToLocaleString := fun _ _ => [];
     toUpperCase := asciiUpper;
     localDate := fun _ => Some (2026, 1, 12, 2, 8, 3) |}.

Definition windowsJoin (dir file : jsstring) : jsstring := dir ++ [92] ++ file.

Definition s_tmp : jsstring := Eval vm_compute in lit "C:\Temp".

(** The registry answers of a machine with one SEWOO printer, registered
    as SEWOO LK-T210 on the port USB001. *)
Definition s_portTable : jsstring :=
  Eval vm_compute in
    [13; 10] ++ lit "Node,Name,PortName" ++ [13; 10]
      ++ lit "SHOP-PC,SEWOO LK-T210,USB001:" ++ [13; 10].

Definition s_nameTable : jsstring :=
  Eval vm_compute in
    [13; 10] ++ lit "Node,Name" ++ [13; 10]
      ++ lit "SHOP-PC,SEWOO LK-T210" ++ [13; 10].

Definition s_timeout : jsstring := Eval vm_compute in lit "spawnSync ETIMEDOUT".
Definition s_busy : jsstring := Eval vm_compute in lit "EBUSY: resource busy or locked".

(** A host where every command and every file operation succeeds. *)
Definition healthyHost : Host :=
  {| runCommand := fun command =>
       if bool_decide (command = wmicCommand [lit "Name"; lit "PortName"])
       then ExecOk s_portTable
       else if bool_decide (command = wmicCommand [lit "Name"])
       then ExecOk s_nameTable
       else ExecOk [];
     tmpdir := s_tmp;
     pathJoin := windowsJoin;
     dateNow := 1770829683000;
     writeError := fun _ => None;
     unlinkError := fun _ => None |}.

(** A host where the spooler submission fails. *)
Definition rejectingHost : Host :=
  {| runCommand := fun _ => ExecErr s_timeout;
     tmpdir := s_tmp;
     pathJoin := windowsJoin;
     dateNow := 1770829683000;
     writeError := fun _ => None;
     unlinkError := fun _ => None |}.

(** A host where the staged file cannot be removed. *)
Definition lockedFileHost : Host :=
  {| runCommand := fun _ => ExecErr s_timeout;
     tmpdir := s_tmp;
     pathJoin := windowsJoin;
     dateNow := 1770829683000;
     writeError := fun _ => None;
     unlinkError := fun _ => Some s_busy |}.

(** A host where the port is discovered and the query of the name
    times out. *)
Definition portOnlyHost : Host :=
  {| runCommand := fun command =>
       if bool_decide (command = wmicCommand [lit "Name"; lit "PortName"])
       then ExecOk s_portTable
       else ExecErr s_timeout;
     tmpdir := s_tmp;
     pathJoin := windowsJoin;
     dateNow := 1770829683000;
     writeError := fun _ => None;
     unlinkError := fun _ => None |}.

(** A host where the name is discovered and the query of the port
    times out. *)
Definition nameOnlyHost : Host :=
  {| runCommand := fun command =>
       if bool_decide (command = wmicCommand [lit "Name"])
       then ExecOk s_nameTable
       else ExecErr s_timeout;
     tmpdir := s_tmp;
     pathJoin := windowsJoin;
     dateNow := 1770829683000;
     writeError := fun _ => None;
     unlinkError := fun _ => None |}.

Definition freshState : State :=
  {| printerInstance := None;
     heap := [];
     sewooPrinterName := None;
     rawPrintScriptPath := None;
     files := ∅;
     spawned := [];
     jobs := [] |}.

Definition applesItem : LineItem :=
  {| productName := lit "사과세트"; quantity := 2; amount := 20000 |}.

Definition longItem : LineItem :=
  {| productName := lit "ABCDEFGHIJKLMNO"; quantity := 1; amount := 1000 |}.

Definition sampleOrder : ReceiptData :=
  {| orderId := 1042;
     displayCode := JUndefined;
     paidAt := lit "2026-02-12T02:08:03";
     deliveryHour := JVal 18;
     deliveryMinute := JVal 30;
     buyerName := lit "김철수";
     phone := lit "010-1234-5678";
     items := [applesItem];
     totalProductAmount := 20000;
     deliveryFee := 3000;
     distanceKm := NInt 2;
     address1 := lit "서울시 강남구";
     address2 := JNull;
     scheduledDeliveryHour := JNull;
     scheduledDeliveryMinute := JNull |}.

Definition with_schedule (data : ReceiptData) (hour minute : nullable Z)
    : ReceiptData :=
  {| orderId := orderId data;
     displayCode := displayCode data;
     paidAt := paidAt data;
     deliveryHour := deliveryHour data;
     deliveryMinute := deliveryMinute data;
     buyerName := buyerName data;
     phone := phone data;
     items := items data;
     totalProductAmount := totalProductAmount data;
     deliveryFee := deliveryFee data;
     distanceKm := distanceKm data;
     address1 := address1 data;
     address2 := address2 data;
     scheduledDeliveryHour := hour;
     scheduledDeliveryMinute := minute |}.

(** A printer object on LPT1 whose buffer holds the sample receipt, and
    the state in which it is the cached instance, at reference 0. *)
Definition loadedPrinter : Printer :=
  buildReceipt sampleRuntime (newThermalPrinter (s_devicePrefix ++ s_LPT1)) sampleOrder.

Definition loadedState : State :=
  {| printerInstance := Some 0%nat;
     heap := [loadedPrinter];
     sewooPrinterName := None;
     rawPrintScriptPath := None;
     files := ∅;
     spawned := [];
     jobs := [] |}.

Definition initialStyle : Style :=
  {| styleAlign := ALeft; styleSize := SizeNormal; styleBold := false |}.

End Samples.
Import Samples.

(** ** The health check *)
Module Status.

Definition s_FALSE : jsstring := Eval vm_compute in lit "FALSE".

(** [checkPrinterStatus()]: the offline flag of the registry when the query
    yields one, else whether a port is discovered.  Nothing in the [try]
    throws in this model, so the [catch] is not reached. *)
Definition checkPrinterStatus (rt : Runtime) (os : Host) (st : State)
    : bool * State :=
  let '(_, st1) := initPrinter rt os st in
  let '(offline, st2) :=
    querySewooPrinter rt os [lit "Name"; lit "WorkOffline"] 2 true st1 in
  match offline with
  | Some (c :: flag) =>
      (bool_decide (toUpperCase rt (c :: flag) = s_FALSE), st2)
  | _ =>
      let '(port, st3) := findPrinterPort rt os st2 in
      (match port with Some _ => true | None => false end, st3)
  end.

End Status.
Import Status.

(** ** The HTTP handlers of the bridge server *)
Module Server.

(** The body of [POST /print], field by field.  A field that is present has
    the type that the interface documents; [JUndefined] is a missing key and
    [JNull] a JSON null. *)
(** The value of the field [items] when it is present: an array of items,
    or a value that is not an array. *)
Inductive ItemsValue : Type :=
| NotAnArray
| ItemArray (items : list LineItem).

Record PrintBody : Type := {
  body_orderId : nullable Z;
  body_displayCode : nullable jsstring;
  body_paidAt : nullable jsstring;
  body_deliveryHour : nullable Z;
  body_deliveryMinute : nullable Z;
  body_buyerName : nullable jsstring;
  body_phone : nullable jsstring;
  body_items : nullable ItemsValue;
  body_totalProductAmount : nullable Z;
  body_deliveryFee : nullable Z;
  body_distanceKm : nullable number;
  body_address1 : nullable jsstring;
  body_address2 : nullable jsstring;
  body_scheduledDeliveryHour : nullable Z;
  body_scheduledDeliveryMinute : nullable Z
}.

(** [const requiredFields = [...]]: each name with the test that the field
    is neither undefined nor null, in the order of the source. *)
Definition requiredFields : list (jsstring * (PrintBody -> bool)) :=
  [ (lit "orderId", fun b => notNull (body_orderId b));
    (lit "paidAt", fun b => notNull (body_paidAt b));
    (lit "deliveryHour", fun b => notNull (body_deliveryHour b));
    (lit "deliveryMinute", fun b => notNull (body_deliveryMinute b));
    (lit "buyerName", fun b => notNull (body_buyerName b));
    (lit "phone", fun b => notNull (body_phone b));
    (lit "items", fun b => notNull (body_items b));
    (lit "totalProductAmount", fun b => notNull (body_totalProductAmount b));
    (lit "deliveryFee", fun b => notNull (body_deliveryFee b));
    (lit "distanceKm", fun b => notNull (body_distanceKm b));
    (lit "address1", fun b => notNull (body_address1 b)) ].

(** The first required field that the loop finds missing. *)
Definition firstMissing (body : PrintBody) : option jsstring :=
  match List.find (fun field => negb (snd field body)) requiredFields with
  | Some field => Some (fst field)
  | None => None
  end.

(** The document that [buildReceipt] reads from a body.  The defaults stand
    for fields that the validation has shown to be present. *)
Definition documentOf (body : PrintBody) : ReceiptData :=
  {| orderId := nullish_or (body_orderId body) 0;
     displayCode := body_displayCode body;
     paidAt := nullish_or (body_paidAt body) [];
     deliveryHour := body_deliveryHour body;
     deliveryMinute := body_deliveryMinute body;
     buyerName := nullish_or (body_buyerName body) [];
     phone := nullish_or (body_phone body) [];
     items := match body_items body with
              | JVal (ItemArray items) => items
              | _ => []
              end;
     totalProductAmount := nullish_or (body_totalProductAmount body) 0;
     deliveryFee := nullish_or (body_deliveryFee body) 0;
     distanceKm := nullish_or (body_distanceKm body) NNaN;
     address1 := nullish_or (body_address1 body) [];
     address2 := body_address2 body;
     scheduledDeliveryHour := body_scheduledDeliveryHour body;
     scheduledDeliveryMinute := body_scheduledDeliveryMinute body |}.

(** What the process environment adds to an error answer: whether
    [NODE_ENV] is development, and the stack of an error. *)
Record ServerEnv : Type := {
  development : bool;
  stackOf : jsstring -> jsstring
}.

(** The answers of [POST /print]. *)
Inductive Response : Type :=
| PrintDone (orderId : Z)
| BadRequest (error : jsstring)
| ServerError (error : jsstring) (details : option jsstring).

Definition statusCode (r : Response) : Z :=
  match r with
  | PrintDone _ => 200
  | BadRequest _ => 400
  | ServerError _ _ => 500
  end.

Definition s_missingField : jsstring := Eval vm_compute in lit "필수 필드 누락: ".
Definition s_emptyItems : jsstring :=
  Eval vm_compute in lit "상품 목록(items)이 비어 있습니다".
Definition s_notConnected : jsstring :=
  Eval vm_compute in lit "프린터 연결 실패 - USB 케이블 및 전원을 확인하세요".
Definition s_printFailed : jsstring := Eval vm_compute in lit "출력 실패: ".

(** [app.post('/print', async (req, res) => { ... })] *)
Definition handlePrint (rt : Runtime) (os : Host) (env : ServerEnv)
    (body : PrintBody) (st : State) : Response * State :=
  match firstMissing body with
  | Some field => (BadRequest (s_missingField ++ field), st)
  | None =>
      (* if (!Array.isArray(data.items) || data.items.length === 0) *)
      match body_items body with
      | JVal (ItemArray (_ :: _)) =>
          let '(printer, st1) := initPrinter rt os st in
          let '(isConnected, st2) := checkPrinterStatus rt os st1 in
          if negb isConnected then (ServerError s_notConnected None, st2)
          else
            let st3 :=
              on_printer printer
                (fun object => buildReceipt rt object (documentOf body)) st2 in
            let '(completion, st4) := printReceipt os printer st3 in
            match completion with
            | Returned _ => (PrintDone (nullish_or (body_orderId body) 0), st4)
            | Thrown message =>
                (ServerError (s_printFailed ++ message)
                   (if development env then Some (stackOf env message) else None),
                 st4)
            end
      | _ => (BadRequest s_emptyItems, st)
      end
  end.

(** [app.get('/health', ...)]: the status code of the answer. *)
Definition handleHealth (rt : Runtime) (os : Host) (st : State) : Z * State :=
  let '(isConnected, st1) := checkPrinterStatus rt os st in
  (if isConnected then 200 else 503, st1).

End Server.
Import Server.

(** ** Sample requests and hosts *)
Module Scenarios.

Definition sampleBody : PrintBody :=
  {| body_orderId := JVal 1042;
     body_displayCode := JUndefined;
     body_paidAt := JVal (lit "2026-02-12T02:08:03");
     body_deliveryHour := JVal 18;
     body_deliveryMinute := JVal 30;
     body_buyerName := JVal (lit "김철수");
     body_phone := JVal (lit "010-1234-5678");
     body_items := JVal (ItemArray [applesItem]);
     body_totalProductAmount := JVal 20000;
     body_deliveryFee := JVal 3000;
     body_distanceKm := JVal (NInt 2);
     body_address1 := JVal (lit "서울시 강남구");
     body_address2 := JNull;
     body_scheduledDeliveryHour := JNull;
     body_scheduledDeliveryMinute := JNull |}.

(** The sample without its phone number and without its delivery fee. *)
Definition incompleteBody : PrintBody :=
  {| body_orderId := JVal 1042;
     body_displayCode := JUndefined;
     body_paidAt := JVal (lit "2026-02-12T02:08:03");
     body_deliveryHour := JVal 18;
     body_deliveryMinute := JVal 30;
     body_buyerName := JVal (lit "김철수");
     body_phone := JUndefined;
     body_items := JVal (ItemArray [applesItem]);
     body_totalProductAmount := JVal 20000;
     body_deliveryFee := JNull;
     body_distanceKm := JVal (NInt 2);
     body_address1 := JVal (lit "서울시 강남구");
     body_address2 := JNull;
     body_scheduledDeliveryHour := JNull;
     body_scheduledDeliveryMinute := JNull |}.

(** The sample with a text where the array of items should be. *)
Definition malformedBody : PrintBody :=
  {| body_orderId := JVal 1042;
     body_displayCode := JUndefined;
     body_paidAt := JVal (lit "2026-02-12T02:08:03");
     body_deliveryHour := JVal 18;
     body_deliveryMinute := JVal 30;
     body_buyerName := JVal (lit "김철수");
     body_phone := JVal (lit "010-1234-5678");
     body_items := JVal NotAnArray;
     body_totalProductAmount := JVal 20000;
     body_deliveryFee := JVal 3000;
     body_distanceKm := JVal (NInt 2);
     body_address1 := JVal (lit "서울시 강남구");
     body_address2 := JNull;
     body_scheduledDeliveryHour := JNull;
     body_scheduledDeliveryMinute := JNull |}.

Definition productionEnv : ServerEnv :=
  {| development := false; stackOf := fun message => message |}.

Definition s_statusTable : jsstring :=
  Eval vm_compute in
    [13; 10] ++ lit "Node,Name,WorkOffline" ++ [13; 10]
      ++ lit "SHOP-PC,SEWOO LK-T210,FALSE" ++ [13; 10].

(** A host whose registry shows the printer online and whose spooler
    rejects the job. *)
Definition jammedHost : Host :=
  {| runCommand := fun command =>
       if bool_decide (command = wmicCommand [lit "Name"; lit "PortName"])
       then ExecOk s_portTable
       else if bool_decide (command = wmicCommand [lit "Name"])
       then ExecOk s_nameTable
       else if bool_decide (command = wmicCommand [lit "Name"; lit "WorkOffline"])
       then ExecOk s_statusTable
       else ExecErr s_timeout;
     tmpdir := s_tmp;
     pathJoin := windowsJoin;
     dateNow := 1770829683000;
     writeError := fun _ => None;
     unlinkError := fun _ => None |}.

(** The same machine a minute later, the spooler accepting the job. *)
Definition recoveredHost : Host :=
  {| runCommand := fun command =>
       if bool_decide (command = wmicCommand [lit "Name"; lit "PortName"])
       then ExecOk s_portTable
       else if bool_decide (command = wmicCommand [lit "Name"])
       then ExecOk s_nameTable
       else if bool_decide (command = wmicCommand [lit "Name"; lit "WorkOffline"])
       then ExecOk s_statusTable
       else ExecOk [];
     tmpdir := s_tmp;
     pathJoin := windowsJoin;
     dateNow := 1770829743000;
     writeError := fun _ => None;
     unlinkError := fun _ => None |}.

(** The state in which the sample request leaves the jammed host. *)
Definition jammedState : State :=
  snd (handlePrint sampleRuntime jammedHost productionEnv sampleBody freshState).

End Scenarios.
Import Scenarios.

(** * Properties *)

(** ** The definitions on concrete inputs *)

Example lit_is_utf16 : lit "원 a😀" = [0xC6D0; 32; 97; 0xD83D; 0xDE00].
Proof. reflexivity. Qed.

Example String_int_examples :
  String_int 0 = lit "0" /\ String_int 1042 = lit "1042" /\ String_int (-7) = lit "-7".
Proof. repeat split. Qed.

Example toLocaleString_int_examples :
  toLocaleString_int 999 = lit "999" /\
  toLocaleString_int 20000 = lit "20,000" /\
  toLocaleString_int 1234567 = lit "1,234,567" /\
  toLocaleString_int (-15900) = lit "-15,900".
Proof. repeat split. Qed.

Example formatAmount_example : formatAmount 15900 = lit "15,900원".
Proof. reflexivity. Qed.

Example formatPrice_example : formatPrice 15900 15 = lit "        15,900원".
Proof. reflexivity. Qed.

Example alignText_examples :
  alignText (lit "과일맛집") s_center 16 = lit "    과일맛집    " /\
  alignText (lit "ab") s_right 5 = lit "   ab" /\
  alignText (lit "ab") (lit "justify") 5 = lit "ab   " /\
  alignText (lit "과일맛집1995") s_left 12 = lit "과일맛집1995".
Proof. repeat split. Qed.

Example formatRow_example :
  formatRow (lit "상품합계:") (lit "13,000원") 32
  = lit "상품합계:               13,000원".
Proof. reflexivity. Qed.

Example js_div_examples :
  js_div 20000 2 = NInt 10000 /\ js_div 10000 3 = NFrac 10000 3 /\
  js_div 5 0 = NInfinity false /\ js_div 0 0 = NNaN.
Proof. repeat split. Qed.

Example orderDate_example : orderDate sampleRuntime sampleOrder = lit "2026-02-12 02:08:03".
Proof. reflexivity. Qed.

Example trim_split_example :
  split 10 (trim s_portTable)
  = [ lit "Node,Name,PortName" ++ [13]; lit "SHOP-PC,SEWOO LK-T210,USB001:" ].
Proof. reflexivity. Qed.

Example extractColumn_examples :
  extractColumn sampleRuntime s_portTable 2 true = Some (lit "USB001") /\
  extractColumn sampleRuntime s_nameTable 1 false = Some (lit "SEWOO LK-T210") /\
  extractColumn sampleRuntime s_nameTable 2 true = None /\
  extractColumn sampleRuntime (lit "Node,Name") 1 false = None.
Proof. repeat split. Qed.

Example spoolCommand_example :
  spoolCommand (lit "s.ps1") (lit "r.bin") (lit "P")
  = lit "powershell -ExecutionPolicy Bypass -File " ++ [34] ++ lit "s.ps1" ++ [34]
      ++ lit " -FilePath " ++ [34] ++ lit "r.bin" ++ [34]
      ++ lit " -PrinterName " ++ [34] ++ lit "P" ++ [34].
Proof. reflexivity. Qed.

(** A second call of [initPrinter] returns the cached instance and runs no
    query. *)
Example initPrinter_cached :
  initPrinter sampleRuntime healthyHost
    (snd (initPrinter sampleRuntime healthyHost freshState))
  = initPrinter sampleRuntime healthyHost freshState.
Proof. reflexivity. Qed.

(** ** Lengths and widths *)
Section Widths.

Lemma js_length_app (a b : jsstring) : js_length (a ++ b) = js_length a + js_length b.
Proof. unfold js_length. rewrite length_app. lia. Qed.

Lemma js_length_nonneg (s : jsstring) : 0 <= js_length s.
Proof. unfold js_length. lia. Qed.

Lemma js_length_spaces (n : Z) : 0 <= n -> js_length (spaces n) = n.
Proof. intros Hn. unfold js_length, spaces. rewrite length_replicate. lia. Qed.

Lemma spaces_nonpos (n : Z) : n <= 0 -> spaces n = [].
Proof.
  intros Hn. unfold spaces.
  replace (Z.to_nat n) with O by lia. reflexivity.
Qed.

Lemma sumCells_app (a b : jsstring) : sumCells (a ++ b) = sumCells a + sumCells b.
Proof. induction a as [|c a IH]; simpl; [reflexivity | rewrite IH; lia]. Qed.

Lemma sumCells_replicate_space (k : nat) : sumCells (replicate k 32) = Z.of_nat k.
Proof.
  induction k as [|k IH]; [reflexivity|].
  change (replicate (S k) 32) with (32 :: replicate k 32).
  cbn [sumCells]. rewrite IH. change (cellsOf 32) with 1. lia.
Qed.

Lemma visualWidth_app (a b : jsstring) :
  visualWidth (a ++ b) = visualWidth a + visualWidth b.
Proof. apply sumCells_app. Qed.

Lemma visualWidth_spaces (n : Z) : 0 <= n -> visualWidth (spaces n) = n.
Proof.
  intros Hn. unfold visualWidth, spaces. rewrite sumCells_replicate_space. lia.
Qed.

Lemma visualWidth_nonneg (s : jsstring) : 0 <= visualWidth s.
Proof.
  unfold visualWidth. induction s as [|c s IH]; simpl; [lia|].
  unfold cellsOf. destruct (isKorean c); lia.
Qed.

(** The arithmetic of the source, length plus the number of syllables,
    is the sum of the cells of the code units. *)
Lemma actualWidth_visualWidth (s : jsstring) : actualWidth s = visualWidth s.
Proof.
  unfold actualWidth, koreanCount, visualWidth, js_length.
  induction s as [|c s IH]; [reflexivity|].
  cbn [List.filter sumCells length]. unfold cellsOf.
  destruct (isKorean c); cbn [length]; lia.
Qed.

Lemma width_sum (s : jsstring) : js_length s + koreanCount s = visualWidth s.
Proof. apply actualWidth_visualWidth. Qed.

(** A string without syllables is as wide as it is long. *)
Lemma visualWidth_plain (s : jsstring) :
  Forall (fun c => isKorean c = false) s -> visualWidth s = js_length s.
Proof.
  unfold visualWidth, js_length. induction 1 as [|c s Hc _ IH]; [reflexivity|].
  cbn [sumCells length]. unfold cellsOf. rewrite Hc. lia.
Qed.

(** On a string without a high surrogate, code points are code units. *)
Lemma codePoints_bmp (s : jsstring) :
  Forall (fun c => isHighSurrogate c = false) s -> codePoints s = s.
Proof.
  induction 1 as [|c s Hc _ IH]; [reflexivity|].
  cbn [codePoints]. rewrite Hc. cbn [andb]. rewrite IH.
  destruct s; reflexivity.
Qed.

Lemma visualWidth_codePoints_bmp (s : jsstring) :
  Forall (fun c => isHighSurrogate c = false) s ->
  visualWidth_codePoints s = visualWidth s.
Proof. intros H. unfold visualWidth_codePoints. now rewrite codePoints_bmp. Qed.

End Widths.

(** ** The text of an integer *)
Section Digits.

Lemma numeric_not_korean (c : Z) : isNumeric c -> isKorean c = false.
Proof. unfold isNumeric, isKorean. intros H. apply andb_false_iff. lia. Qed.

Lemma uint_units_numeric (u : Decimal.uint) : Forall isNumeric (uint_units u).
Proof.
  induction u; cbn [uint_units]; constructor; auto; unfold isNumeric; lia.
Qed.

Lemma String_int_numeric (z : Z) : Forall isNumeric (String_int z).
Proof.
  unfold String_int. destruct (Z.to_int z).
  - apply uint_units_numeric.
  - constructor; [unfold isNumeric; lia | apply uint_units_numeric].
Qed.

Lemma groupRev_numeric (r : jsstring) (k : nat) :
  Forall isNumeric r -> Forall isNumeric (groupRev r k).
Proof.
  intros H. revert k. induction H as [|c r Hc _ IH]; intros k; cbn [groupRev].
  - constructor.
  - destruct k.
    + constructor; [unfold isNumeric; lia |].
      constructor; [exact Hc | apply IH].
    + constructor; [exact Hc | apply IH].
Qed.

Lemma toLocaleString_int_numeric (z : Z) : Forall isNumeric (toLocaleString_int z).
Proof.
  unfold toLocaleString_int. apply Forall_app. split.
  - destruct (z <? 0); constructor; [unfold isNumeric; lia | constructor].
  - apply Forall_rev, groupRev_numeric, Forall_rev, String_int_numeric.
Qed.

Lemma visualWidth_toLocaleString_int (z : Z) :
  visualWidth (toLocaleString_int z) = js_length (toLocaleString_int z).
Proof.
  apply visualWidth_plain.
  eapply List.Forall_impl; [| apply toLocaleString_int_numeric].
  intros c Hc. now apply numeric_not_korean.
Qed.

End Digits.

(** ** The layout engine *)
Section LayoutEngine.

Lemma half_bounds (p : Z) : 0 < p -> 0 <= p / 2 /\ p / 2 <= p - p / 2 <= p / 2 + 1.
Proof.
  intros Hp. pose proof (Z.div_mod p 2 ltac:(lia)) as Hdm.
  pose proof (Z.mod_pos_bound p 2 ltac:(lia)) as Hm. lia.
Qed.

(** C1, as the code has it: the visual width counts UTF-16 code units, two
    cells for a unit in U+AC00..U+D7A3 and one cell for any other unit.
    A text narrower than the budget comes back exactly [width] cells wide,
    padded with spaces only: on both sides for [center], the left half
    being the floor of the remainder so that an odd space goes to the
    right; on the left for [right]; on the right for any other mode.  A
    text at or above the budget comes back unchanged. *)
Theorem alignText_visual_width (text align : jsstring) (width : Z) :
  (visualWidth text < width ->
     visualWidth (alignText text align width) = width /\
     exists leftPad rightPad : Z,
       alignText text align width = spaces leftPad ++ text ++ spaces rightPad /\
       0 <= leftPad /\ 0 <= rightPad /\
       leftPad + rightPad = width - visualWidth text /\
       (align = s_center -> leftPad <= rightPad <= leftPad + 1) /\
       (align = s_right -> rightPad = 0) /\
       (align <> s_center -> align <> s_right -> leftPad = 0)) /\
  (width <= visualWidth text -> alignText text align width = text).
Proof.
  unfold alignText. rewrite actualWidth_visualWidth. split; intros Hw.
  - destruct (Z.leb_spec width (visualWidth text)) as [Hle|Hlt]; [lia|].
    set (padding := width - visualWidth text).
    assert (Hpad : 0 < padding) by (unfold padding; lia).
    destruct (half_bounds padding Hpad) as [Hl Hr].
    case_bool_decide as Hc; [|case_bool_decide as Hr'].
    + split.
      * rewrite !visualWidth_app, !visualWidth_spaces by lia.
        unfold padding. lia.
      * exists (padding / 2), (padding - padding / 2).
        split; [reflexivity|].
        split; [lia|]. split; [lia|]. split; [unfold padding; lia|].
        split; [intros _; lia|].
        split; [intros Heq; rewrite Hc in Heq; discriminate Heq|].
        intros Hn _. now destruct Hn.
    + split.
      * rewrite visualWidth_app, visualWidth_spaces by lia.
        unfold padding. lia.
      * exists padding, 0. rewrite (spaces_nonpos 0), app_nil_r by lia.
        split; [reflexivity|].
        split; [lia|]. split; [lia|]. split; [unfold padding; lia|].
        split; [intros Heq; now destruct Hc|].
        split; [reflexivity|].
        intros _ Hn. now destruct Hn.
    + split.
      * rewrite visualWidth_app, visualWidth_spaces by lia.
        unfold padding. lia.
      * exists 0, padding. rewrite (spaces_nonpos 0) by lia.
        split; [reflexivity|].
        split; [lia|]. split; [lia|]. split; [unfold padding; lia|].
        split; [intros Heq; now destruct Hc|].
        split; [intros Heq; now destruct Hr'|].
        reflexivity.
  - destruct (Z.leb_spec width (visualWidth text)) as [Hle|Hlt]; [reflexivity | lia].
Qed.

(** A centred two-syllable text in seven cells: one space before, two
    after. *)
Lemma alignText_visual_width_witness :
  visualWidth (lit "과일") < 7 /\
  visualWidth (alignText (lit "과일") s_center 7) = 7 /\
  alignText (lit "과일") s_center 7 = spaces 1 ++ lit "과일" ++ spaces 2.
Proof.
  split; [reflexivity|].
  split; [|reflexivity].
  apply (proj1 (alignText_visual_width (lit "과일") s_center 7)).
  reflexivity.
Defined.

(** C1, as the specification words it, fails on a code point outside the
    basic plane: U+1F600 is one code point, hence one cell by the words,
    and two code units, hence two cells for the code.  In a budget of two
    cells it comes back unpadded. *)
Lemma alignText_codePoints_counterexample :
  visualWidth_codePoints (lit "😀") < 2 /\
  alignText (lit "😀") s_left 2 = lit "😀" /\
  visualWidth_codePoints (alignText (lit "😀") s_left 2) <> 2.
Proof. repeat split; vm_compute; congruence. Qed.

(** C8, as the code has it, with the visual width of UTF-16 code units:
    when label and value together are narrower than [width] the row is
    exactly [width] cells wide, the gap being spaces; otherwise the row is
    the plain concatenation. *)
Theorem formatRow_visual_width (label value : jsstring) (width : Z) :
  (visualWidth label + visualWidth value < width ->
     visualWidth (formatRow label value width) = width /\
     formatRow label value width
       = label ++ spaces (width - visualWidth label - visualWidth value) ++ value) /\
  (width <= visualWidth label + visualWidth value ->
     formatRow label value width = label ++ value).
Proof.
  unfold formatRow. rewrite !width_sum. split; intros Hw.
  - rewrite Z.max_r by lia. split; [|reflexivity].
    rewrite !visualWidth_app, visualWidth_spaces by lia. lia.
  - rewrite Z.max_l by lia. reflexivity.
Qed.

(** The subtotal row of a receipt, in 32 cells. *)
Lemma formatRow_visual_width_witness :
  visualWidth (lit "상품합계:") + visualWidth (lit "13,000원") < 32 /\
  visualWidth (formatRow (lit "상품합계:") (lit "13,000원") 32) = 32.
Proof.
  split; [reflexivity|].
  apply (proj1 (formatRow_visual_width (lit "상품합계:") (lit "13,000원") 32)).
  reflexivity.
Defined.

(** C8, as the specification words it, fails on a code point outside the
    basic plane: the label U+1F600 is one cell by the words, the code
    counts two and inserts no gutter in a row of two cells. *)
Lemma formatRow_codePoints_counterexample :
  visualWidth_codePoints (lit "😀") + visualWidth_codePoints [] < 2 /\
  formatRow (lit "😀") [] 2 = lit "😀" /\
  visualWidth_codePoints (formatRow (lit "😀") [] 2) <> 2.
Proof. repeat split; vm_compute; congruence. Qed.

Lemma js_length_formatAmount (amount : Z) :
  js_length (formatAmount amount) = js_length (toLocaleString_int amount) + 1.
Proof. unfold formatAmount. rewrite js_length_app. reflexivity. Qed.

Lemma visualWidth_formatAmount (amount : Z) :
  visualWidth (formatAmount amount) = js_length (toLocaleString_int amount) + 2.
Proof.
  unfold formatAmount. rewrite visualWidth_app, visualWidth_toLocaleString_int.
  reflexivity.
Qed.

Lemma cellsOf_two (c : Z) : cellsOf c = 2 <-> 0xAC00 <= c <= 0xD7A3.
Proof.
  unfold cellsOf, isKorean.
  destruct (Z.leb_spec 0xAC00 c), (Z.leb_spec c 0xD7A3); cbn [andb];
    split; intros Hc; try discriminate Hc; try reflexivity; lia.
Qed.

Lemma cellsOf_one (c : Z) : cellsOf c = 1 <-> ~ (0xAC00 <= c <= 0xD7A3).
Proof.
  unfold cellsOf, isKorean.
  destruct (Z.leb_spec 0xAC00 c), (Z.leb_spec c 0xD7A3); cbn [andb];
    split; intros Hc; try discriminate Hc; try reflexivity; lia.
Qed.

(** C9, as the code has it: [formatPrice] pads by the plain length of
    the currency text, in which the suffix counts for one; the width that
    [alignText] and [formatRow] compute counts the suffix, U+C6D0, for two
    cells, since it lies in U+AC00..U+D7A3, and every other character of
    the currency text for one; two cells go to that range only. *)
Theorem currency_suffix_cells (amount width : Z) (label : jsstring) :
  formatPrice amount width
    = spaces (Z.max 0 (width - (js_length (toLocaleString_int amount) + 1)))
        ++ formatAmount amount /\
  js_length (formatPrice amount width)
    = Z.max width (js_length (toLocaleString_int amount) + 1) /\
  actualWidth (formatAmount amount) = js_length (toLocaleString_int amount) + 2 /\
  formatRow label (formatAmount amount) width
    = label ++ spaces (Z.max 0 (width - visualWidth label
                                - (js_length (toLocaleString_int amount) + 2)))
        ++ formatAmount amount /\
  (forall c : Z, cellsOf c = 2 <-> 0xAC00 <= c <= 0xD7A3) /\
  (forall c : Z, cellsOf c = 1 <-> ~ (0xAC00 <= c <= 0xD7A3)).
Proof.
  split; [unfold formatPrice; now rewrite js_length_formatAmount|].
  split.
  { unfold formatPrice. rewrite js_length_app, js_length_formatAmount.
    rewrite js_length_spaces by lia. lia. }
  split; [rewrite actualWidth_visualWidth; apply visualWidth_formatAmount|].
  split; [unfold formatRow; now rewrite !width_sum, visualWidth_formatAmount|].
  split; intros c; [apply cellsOf_two | apply cellsOf_one].
Qed.

(** C9, as stated, fails: the width rule of [formatRow] and [alignText]
    counts the suffix of a formatted amount for two cells.  The text of
    the amount 0 is two characters long; in a budget of three cells both
    functions find it three cells wide already and add no space. *)
Lemma currency_suffix_counterexample :
  s_won = [0xC6D0] /\
  isKorean 0xC6D0 = true /\
  js_length (formatAmount 0) = 2 /\
  actualWidth (formatAmount 0) = 3 /\
  formatRow [] (formatAmount 0) 3 = formatAmount 0 /\
  alignText (formatAmount 0) s_right 3 = formatAmount 0.
Proof. repeat split. Qed.

End LayoutEngine.

(** ** The lines of a receipt *)
Section ReceiptLines.

Variable rt : Runtime.

Lemma printedLines_rows (st : Style) (rows : list LineItem) (rest : list PrinterOp) :
  printedLines st (map (fun item => Println (itemRow rt item)) rows ++ rest)
  = map (fun item => (st, itemRow rt item)) rows ++ printedLines st rest.
Proof.
  induction rows as [|item rows IH]; [reflexivity|].
  cbn [map app printedLines]. now rewrite IH.
Qed.

(** Whatever the modes of the printer before the call, the receipt shows
    the lines of [receiptLines]. *)
Lemma printedLines_receipt (st : Style) (data : ReceiptData) :
  printedLines st (receiptScript rt data) = receiptLines rt data.
Proof.
  unfold receiptScript, receiptLines, headerBlock, scheduledBanner, orderBlock,
    deliveryLine, customerBlock, addressBlock, itemTable, subtotalRows,
    grandTotal, trailer, bannerText.
  destruct (isScheduled data);
    destruct (notNull (deliveryHour data) && notNull (deliveryMinute data));
    destruct (truthy_str (address2 data));
    cbn [app printedLines applyOp styleAlign styleSize styleBold];
    rewrite <- app_assoc, printedLines_rows; reflexivity.
Qed.

Lemma filter_item_lines (keep : Style * jsstring -> bool) (st : Style)
    (rows : list LineItem) :
  (forall text, keep (st, text) = false) ->
  List.filter keep (map (fun item => (st, itemRow rt item)) rows) = [].
Proof.
  intros Hst. induction rows as [|item rows IH]; [reflexivity|].
  cbn [map List.filter]. now rewrite Hst.
Qed.

End ReceiptLines.

(** ** The receipt builder *)
Section Builder.

Variable rt : Runtime.

Ltac receipt_lines :=
  unfold bannerLines, plainDeliveryLines, arrivalLines, totalLines;
  rewrite ?printedLines_receipt; unfold receiptLines;
  rewrite ?List.filter_app;
  rewrite ?filter_item_lines by (intros; reflexivity).

Lemma bannerLines_receipt (st : Style) (data : ReceiptData) :
  bannerLines st (receiptScript rt data)
  = if isScheduled data
    then [ bannerText (interpolate (scheduledTime data)) ]
    else [].
Proof.
  receipt_lines.
  destruct (isScheduled data);
    destruct (notNull (deliveryHour data) && notNull (deliveryMinute data));
    destruct (truthy_str (address2 data)); reflexivity.
Qed.

Lemma plainDeliveryLines_receipt (st : Style) (data : ReceiptData) :
  plainDeliveryLines st (receiptScript rt data)
  = if isScheduled data then []
    else if notNull (deliveryHour data) && notNull (deliveryMinute data)
    then [ s_deliveryLabel ++ deliveryTime data ]
    else [].
Proof.
  receipt_lines.
  destruct (isScheduled data);
    destruct (notNull (deliveryHour data) && notNull (deliveryMinute data));
    destruct (truthy_str (address2 data)); reflexivity.
Qed.

Lemma arrivalLines_receipt (st : Style) (data : ReceiptData) :
  arrivalLines st (receiptScript rt data)
  = if isScheduled data
    then [ s_arrivalLabel ++ interpolate (scheduledTime data) ]
    else [].
Proof.
  receipt_lines.
  destruct (isScheduled data);
    destruct (notNull (deliveryHour data) && notNull (deliveryMinute data));
    destruct (truthy_str (address2 data)); reflexivity.
Qed.

Lemma totalLines_receipt (st : Style) (data : ReceiptData) :
  totalLines st (receiptScript rt data)
  = [ formatRow s_totalLabel (formatAmount (totalAmount data)) 16 ].
Proof.
  receipt_lines.
  destruct (isScheduled data);
    destruct (notNull (deliveryHour data) && notNull (deliveryMinute data));
    destruct (truthy_str (address2 data)); reflexivity.
Qed.

(** *** The delivery lines *)

(** C4: a document carries a delivery hour and a delivery minute: they
    are required fields, and the request handler refuses a body that
    lacks one before a receipt is built.  For every such document the
    banner is printed exactly when a scheduled delivery time is present,
    the plain delivery-time line exactly when none is present, and the
    two never come together.  A schedule of 15 hours 5 minutes gives a
    banner that contains 15:05, and a document without schedule for 18
    hours 30 minutes gives a plain line that contains 18:30 and no
    banner. *)
Theorem delivery_lines_exclusive (st : Style) (data : ReceiptData) :
  notNull (deliveryHour data) = true ->
  notNull (deliveryMinute data) = true ->
  (bannerLines st (receiptScript rt data) <> [] <-> isScheduled data = true) /\
  (plainDeliveryLines st (receiptScript rt data) <> [] <->
     isScheduled data = false) /\
  ~ (bannerLines st (receiptScript rt data) <> [] /\
     plainDeliveryLines st (receiptScript rt data) <> []) /\
  (scheduledDeliveryHour data = JVal 15 ->
   scheduledDeliveryMinute data = JVal 5 ->
     bannerLines st (receiptScript rt data) = [ lit "** 15:05 예약배달 **" ] /\
     includes (lit "15:05") (lit "** 15:05 예약배달 **") = true /\
     plainDeliveryLines st (receiptScript rt data) = []) /\
  (isScheduled data = false ->
   deliveryHour data = JVal 18 ->
   deliveryMinute data = JVal 30 ->
     plainDeliveryLines st (receiptScript rt data) = [ lit "배달예정: 18:30" ] /\
     includes (lit "18:30") (lit "배달예정: 18:30") = true /\
     bannerLines st (receiptScript rt data) = []).
Proof.
  intros Hhour Hminute.
  rewrite bannerLines_receipt, plainDeliveryLines_receipt.
  rewrite Hhour, Hminute. cbn [andb].
  split; [|split; [|split; [|split]]].
  - destruct (isScheduled data); split; intros H; congruence.
  - destruct (isScheduled data); split; intros H; congruence.
  - destruct (isScheduled data); intros [H1 H2]; congruence.
  - intros Hh Hm. unfold scheduledTime, isScheduled. rewrite Hh, Hm.
    repeat split.
  - intros Hs Hh Hm. unfold deliveryTime. rewrite Hs, Hh, Hm.
    repeat split.
Qed.

(** C10: the hour alone decides.  The banner and the arrival line are
    printed exactly when the scheduled hour is neither null nor undefined,
    whatever the minute, and then the plain line is not; their time shows
    the minute, which is 0 when absent.  Hour 0 is a schedule, and hour 9
    without a minute reads 09:00. *)
Theorem scheduled_by_hour_alone (st : Style) (data : ReceiptData) :
  bannerLines st (receiptScript rt data)
    = match scheduledDeliveryHour data with
      | JVal hour =>
          [ bannerText
              (pad2 (String_int hour) ++ lit ":"
               ++ pad2 (String_int (nullish_or (scheduledDeliveryMinute data) 0))) ]
      | _ => []
      end /\
  arrivalLines st (receiptScript rt data)
    = match scheduledDeliveryHour data with
      | JVal hour =>
          [ s_arrivalLabel
              ++ pad2 (String_int hour) ++ lit ":"
              ++ pad2 (String_int (nullish_or (scheduledDeliveryMinute data) 0)) ]
      | _ => []
      end /\
  (forall hour, scheduledDeliveryHour data = JVal hour ->
     plainDeliveryLines st (receiptScript rt data) = []) /\
  (scheduledDeliveryHour data = JVal 0 ->
     isScheduled data = true /\
     bannerLines st (receiptScript rt data)
       = [ bannerText
             (lit "00:"
              ++ pad2 (String_int (nullish_or (scheduledDeliveryMinute data) 0))) ]) /\
  (scheduledDeliveryHour data = JVal 9 ->
   notNull (scheduledDeliveryMinute data) = false ->
     bannerLines st (receiptScript rt data) = [ lit "** 09:00 예약배달 **" ] /\
     arrivalLines st (receiptScript rt data) = [ lit "도착예정: 09:00" ] /\
     plainDeliveryLines st (receiptScript rt data) = []).
Proof.
  rewrite bannerLines_receipt, arrivalLines_receipt, plainDeliveryLines_receipt.
  unfold scheduledTime, isScheduled.
  split; [|split; [|split; [|split]]].
  - destruct (scheduledDeliveryHour data); reflexivity.
  - destruct (scheduledDeliveryHour data); reflexivity.
  - intros hour Hh. now rewrite Hh.
  - intros Hh. rewrite Hh. split; reflexivity.
  - intros Hh Hm. rewrite Hh.
    destruct (scheduledDeliveryMinute data); try discriminate Hm; repeat split.
Qed.

(** *** The item rows *)

Lemma visualWidth_le_double (s : jsstring) : visualWidth s <= 2 * js_length s.
Proof.
  unfold visualWidth, js_length. induction s as [|c s IH]; [reflexivity|].
  cbn [sumCells length]. unfold cellsOf. destruct (isKorean c); lia.
Qed.

Lemma visualWidth_prefix7 (s : jsstring) : visualWidth (substring0 7 s) <= 14.
Proof.
  pose proof (visualWidth_le_double (substring0 7 s)) as Hd.
  pose proof (firstn_le_length 7 s) as Hl.
  unfold substring0, js_length in *. lia.
Qed.

Lemma padStart_spaces (n : Z) (s : jsstring) :
  padStart n 32 s = spaces (n - js_length s) ++ s.
Proof. reflexivity. Qed.

Lemma js_div_exact (a b : Z) :
  0 < b -> a mod b = 0 -> js_div a b = NInt (a / b) /\ a / b * b = a.
Proof.
  intros Hb Hm. unfold js_div.
  destruct (Z.eqb_spec b 0) as [?|_]; [lia|].
  destruct (Z.eqb_spec a 0) as [Ha|_].
  - subst a. destruct (Z.ltb_spec b 0); [lia|].
    rewrite Z.div_0_l by lia. split; reflexivity.
  - rewrite Hm. cbn [Z.eqb]. split; [reflexivity|].
    pose proof (Z.div_mod a b ltac:(lia)). lia.
Qed.

(** C2, as the code has it.  The row is its four fields in order.  The
    name field is the name, or its first seven UTF-16 code units when the
    name is wider than 14 cells, left-aligned in 14 cells in both cases:
    it is always exactly 14 cells wide.  The quantity is padded on the
    left to 3 characters, the unit price, the locale text of amount /
    quantity, to 7 and the amount, in locale text, to 8.  A positive
    quantity that divides the amount gives the exact integer quotient as
    the unit price. *)
Theorem item_row_fields (item : LineItem) :
  itemRow rt item
    = nameField item ++ qtyField item ++ unitField rt item ++ amtField item /\
  nameField item
    = alignText (if 14 <? visualWidth (productName item)
                 then substring0 7 (productName item)
                 else productName item) s_left 14 /\
  visualWidth (nameField item) = 14 /\
  (visualWidth (productName item) <= 14 ->
     nameField item
       = productName item ++ spaces (14 - visualWidth (productName item))) /\
  (14 < visualWidth (productName item) ->
     nameField item
       = substring0 7 (productName item)
           ++ spaces (14 - visualWidth (substring0 7 (productName item)))) /\
  qtyField item
    = spaces (3 - js_length (String_int (quantity item)))
        ++ String_int (quantity item) /\
  unitField rt item
    = spaces (7 - js_length (toLocaleString rt (js_div (amount item) (quantity item))))
        ++ toLocaleString rt (js_div (amount item) (quantity item)) /\
  amtField item
    = spaces (8 - js_length (toLocaleString_int (amount item)))
        ++ toLocaleString_int (amount item) /\
  (0 < quantity item -> amount item mod quantity item = 0 ->
     unitPrice item = NInt (amount item / quantity item) /\
     amount item / quantity item * quantity item = amount item).
Proof.
  assert (Hname : nameField item
    = alignText (if 14 <? visualWidth (productName item)
                 then substring0 7 (productName item)
                 else productName item) s_left 14).
  { unfold nameField, truncatedName, alignText.
    rewrite !width_sum, actualWidth_visualWidth.
    set (name := if 14 <? visualWidth (productName item)
                 then substring0 7 (productName item) else productName item).
    destruct (Z.leb_spec 14 (visualWidth name)) as [Hle|Hlt].
    - rewrite Z.max_l by lia. apply app_nil_r.
    - rewrite Z.max_r by lia. reflexivity. }
  assert (Hshape : forall name : jsstring, visualWidth name <= 14 ->
    alignText name s_left 14 = name ++ spaces (14 - visualWidth name)).
  { intros name Hle. unfold alignText. rewrite actualWidth_visualWidth.
    destruct (Z.leb_spec 14 (visualWidth name)) as [Hge|Hlt].
    - replace (visualWidth name) with 14 by lia.
      symmetry. apply app_nil_r.
    - reflexivity. }
  split; [reflexivity|]. split; [exact Hname|]. split; [|split; [|split]].
  - rewrite Hname.
    destruct (Z.ltb_spec 14 (visualWidth (productName item))) as [Hlong|Hshort].
    + rewrite Hshape by apply visualWidth_prefix7.
      rewrite visualWidth_app, visualWidth_spaces;
        pose proof (visualWidth_prefix7 (productName item)); lia.
    + rewrite Hshape by exact Hshort.
      rewrite visualWidth_app, visualWidth_spaces; lia.
  - intros Hshort. rewrite Hname.
    destruct (Z.ltb_spec 14 (visualWidth (productName item))); [lia|].
    now apply Hshape.
  - intros Hlong. rewrite Hname.
    destruct (Z.ltb_spec 14 (visualWidth (productName item))); [|lia].
    apply Hshape, visualWidth_prefix7.
  - split; [apply padStart_spaces|].
    split; [apply padStart_spaces|].
    split; [apply padStart_spaces|].
    intros Hq Hm. now apply js_div_exact.
Qed.

(** *** The grand total *)

(** C3: the grand total that a receipt shows is the currency text of the
    product subtotal plus the delivery fee, laid out by the row format in
    16 cells after its label, in the quad-sized bold centred style; it
    depends on no other field of the document. *)
Theorem grand_total_computed (st : Style) (data : ReceiptData) :
  totalLines st (receiptScript rt data)
    = [ formatRow s_totalLabel
          (formatAmount (totalProductAmount data + deliveryFee data)) 16 ] /\
  formatRow s_totalLabel
      (formatAmount (totalProductAmount data + deliveryFee data)) 16
    = s_totalLabel
        ++ spaces (Z.max 0 (16 - 5 - visualWidth
                     (formatAmount (totalProductAmount data + deliveryFee data))))
        ++ formatAmount (totalProductAmount data + deliveryFee data) /\
  In (stTitle,
      formatRow s_totalLabel
        (formatAmount (totalProductAmount data + deliveryFee data)) 16)
     (printedLines st (receiptScript rt data)) /\
  (forall data' : ReceiptData,
     totalProductAmount data' = totalProductAmount data ->
     deliveryFee data' = deliveryFee data ->
     totalLines st (receiptScript rt data') = totalLines st (receiptScript rt data)).
Proof.
  split; [apply totalLines_receipt|].
  split; [unfold formatRow; now rewrite !width_sum|].
  split.
  - rewrite printedLines_receipt. unfold receiptLines.
    rewrite !in_app_iff. do 7 right. cbn [In]. tauto.
  - intros data' Hs Hf. rewrite !totalLines_receipt. unfold totalAmount.
    now rewrite Hs, Hf.
Qed.

End Builder.

(** ** The spooler transport *)
Section Spooler.

Variable os : Host.

(** The helper script is written without a word to the printer objects,
    the variables of the connection, or the logs. *)
Lemma ensureRawPrintScript_frame (st : State) :
  printerInstance (snd (ensureRawPrintScript os st)) = printerInstance st /\
  heap (snd (ensureRawPrintScript os st)) = heap st /\
  sewooPrinterName (snd (ensureRawPrintScript os st)) = sewooPrinterName st /\
  spawned (snd (ensureRawPrintScript os st)) = spawned st /\
  jobs (snd (ensureRawPrintScript os st)) = jobs st.
Proof.
  unfold ensureRawPrintScript, writeFileSync.
  destruct (rawPrintScriptPath st) as [[|c p]|];
    try destruct (existsSync (c :: p) st);
    try destruct (writeError os (pathJoin os (tmpdir os) s_scriptName));
    repeat split.
Qed.

(** The helper script does not look at the printer objects: a change of
    an object commutes with it. *)
Lemma ensureRawPrintScript_on_printer (printer : nat) (f : Printer -> Printer)
    (st : State) :
  ensureRawPrintScript os (on_printer printer f st)
  = (fst (ensureRawPrintScript os st),
     on_printer printer f (snd (ensureRawPrintScript os st))).
Proof.
  unfold ensureRawPrintScript, writeFileSync, existsSync.
  cbn [on_printer rawPrintScriptPath files].
  destruct (rawPrintScriptPath st) as [[|c p]|];
    try destruct (files st !! (c :: p));
    try destruct (writeError os (pathJoin os (tmpdir os) s_scriptName));
    reflexivity.
Qed.

(** A call that reaches the spooler: the reference denotes an object with
    a buffer, the script is in place and the buffer is staged.  The staged
    bytes and the command are logged, the result of the command decides
    the completion and whether the object is cleared, and the removal of
    the staged file decides the files. *)
Lemma printReceipt_submitted (printer : nat) (object : Printer) (st st1 : State)
    (buf : list PrinterOp) (scriptPath : jsstring) :
  printerAt st printer = Some object ->
  buffer object = Some buf ->
  ensureRawPrintScript os st = (Returned scriptPath, st1) ->
  writeError os (tmpBin os) = None ->
  let command := spoolCommand scriptPath (tmpBin os) (targetName st) in
  let staged := <[tmpBin os := StagedBuffer buf]> (files st1) in
  printReceipt os printer st
  = (match runCommand os command with
     | ExecOk _ => Returned tt
     | ExecErr message => Thrown (s_printError ++ message)
     end,
     {| printerInstance := printerInstance st1;
        heap := match runCommand os command with
                | ExecOk _ => alter printer_clear printer (heap st1)
                | ExecErr _ => heap st1
                end;
        sewooPrinterName := sewooPrinterName st1;
        rawPrintScriptPath := rawPrintScriptPath st1;
        files := match unlinkError os (tmpBin os) with
                 | Some _ => staged
                 | None => delete (tmpBin os) staged
                 end;
        spawned := spawned st1 ++ [command];
        jobs := jobs st1 ++ [Some (StagedBuffer buf)] |}).
Proof.
  intros Hobj Hbuf Hscript Hwrite. cbv zeta.
  unfold printReceipt. rewrite Hobj, Hbuf, Hscript.
  unfold writeFileSync. rewrite Hwrite.
  unfold execSync, record_job, unlinkSync, on_printer, set_files.
  cbn [files printerInstance heap sewooPrinterName rawPrintScriptPath spawned jobs].
  rewrite lookup_insert_eq.
  destruct (runCommand os _);
    cbn [fst snd files printerInstance heap sewooPrinterName
         rawPrintScriptPath spawned jobs];
    rewrite lookup_insert_eq;
    destruct (unlinkError os (tmpBin os)); reflexivity.
Qed.

(** A call that does not reach the spooler throws, and changes no printer
    object, no variable of the connection and no log. *)
Lemma printReceipt_not_submitted (printer : nat) (st : State) :
  printerAt st printer = None \/
  (exists object, printerAt st printer = Some object /\ buffer object = None) \/
  (exists message st1, ensureRawPrintScript os st = (Thrown message, st1)) \/
  (exists message, writeError os (tmpBin os) = Some message) ->
  (exists message, fst (printReceipt os printer st) = Thrown message) /\
  heap (snd (printReceipt os printer st)) = heap st /\
  printerInstance (snd (printReceipt os printer st)) = printerInstance st /\
  sewooPrinterName (snd (printReceipt os printer st)) = sewooPrinterName st /\
  spawned (snd (printReceipt os printer st)) = spawned st /\
  jobs (snd (printReceipt os printer st)) = jobs st.
Proof.
  intros Hno.
  destruct (ensureRawPrintScript_frame st) as (Hi & Hh & Hn & Hs & Hj).
  unfold printReceipt, writeFileSync.
  destruct (printerAt st printer) as [object|] eqn:Hobj;
    [|split; [eexists; reflexivity | repeat split]].
  destruct (buffer object) as [buf|] eqn:Hbuf;
    [|split; [eexists; reflexivity | repeat split]].
  destruct (ensureRawPrintScript os st) as [[path|message] st1] eqn:Hscript;
    cbn [snd] in Hi, Hh, Hn, Hs, Hj;
    [|split; [eexists; reflexivity | repeat split; assumption]].
  destruct (writeError os (tmpBin os)) as [message|] eqn:Hwrite;
    [split; [eexists; reflexivity | repeat split; assumption]|].
  exfalso.
  destruct Hno as [Hno | [(o & Ho & Hb) | [(m & st' & Hno) | (m & Hno)]]];
    congruence.
Qed.

Lemma printReceipt_cases (printer : nat) (st : State) :
  (exists object buf scriptPath st1,
     printerAt st printer = Some object /\
     buffer object = Some buf /\
     ensureRawPrintScript os st = (Returned scriptPath, st1) /\
     writeError os (tmpBin os) = None) \/
  (printerAt st printer = None \/
   (exists object, printerAt st printer = Some object /\ buffer object = None) \/
   (exists message st1, ensureRawPrintScript os st = (Thrown message, st1)) \/
   (exists message, writeError os (tmpBin os) = Some message)).
Proof.
  destruct (printerAt st printer) as [object|]; [|right; left; reflexivity].
  destruct (buffer object) as [buf|] eqn:Hbuf; [|right; right; left; eauto].
  destruct (ensureRawPrintScript os st) as [[path|message] st1];
    [|right; right; right; left; eauto].
  destruct (writeError os (tmpBin os)) as [message|];
    [right; right; right; right; eauto | left; eauto 8].
Qed.

(** C5: a print that returns has cleared the command buffer of the printer
    object: the buffer holds the code-page command that the library puts
    in every cleared buffer, and nothing of what was printed.  A print
    that throws has left every printer object, the buffer included,
    untouched.  When the call reaches the spooler, a submission that
    succeeds makes the call return, and a submission that fails with some
    message makes it throw the print error that ends with that message,
    the object keeping its buffer. *)
Theorem printReceipt_clears_on_success_only (printer : nat) (st : State) :
  (fst (printReceipt os printer st) = Returned tt ->
     buffer <$> printerAt (snd (printReceipt os printer st)) printer
       = Some (Some prelude)) /\
  (forall message,
     fst (printReceipt os printer st) = Thrown message ->
     heap (snd (printReceipt os printer st)) = heap st) /\
  (forall object buf scriptPath st1,
     printerAt st printer = Some object ->
     buffer object = Some buf ->
     ensureRawPrintScript os st = (Returned scriptPath, st1) ->
     writeError os (tmpBin os) = None ->
     match runCommand os (spoolCommand scriptPath (tmpBin os) (targetName st)) with
     | ExecOk _ =>
         fst (printReceipt os printer st) = Returned tt /\
         printerAt (snd (printReceipt os printer st)) printer
           = Some {| interface := interface object; buffer := Some prelude |}
     | ExecErr message =>
         fst (printReceipt os printer st) = Thrown (s_printError ++ message) /\
         printerAt (snd (printReceipt os printer st)) printer = Some object
     end).
Proof.
  assert (Hsub : forall object buf scriptPath st1,
    printerAt st printer = Some object ->
    buffer object = Some buf ->
    ensureRawPrintScript os st = (Returned scriptPath, st1) ->
    writeError os (tmpBin os) = None ->
    heap st1 = heap st).
  { intros object buf path st1 _ _ Hs _.
    destruct (ensureRawPrintScript_frame st) as (_ & Hh & _).
    now rewrite Hs in Hh. }
  split; [|split].
  - destruct (printReceipt_cases printer st)
      as [(object & buf & path & st1 & Ho & Hb & Hs & Hw) | Hno].
    + rewrite (printReceipt_submitted _ _ _ _ _ _ Ho Hb Hs Hw). cbn [fst snd].
      destruct (runCommand os _); [intros _ | discriminate].
      unfold printerAt. cbn [heap].
      rewrite list_lookup_alter_eq, (Hsub _ _ _ _ Ho Hb Hs Hw).
      unfold printerAt in Ho. rewrite Ho. reflexivity.
    + destruct (printReceipt_not_submitted _ _ Hno) as ((message & Hc) & _).
      rewrite Hc. discriminate.
  - intros message.
    destruct (printReceipt_cases printer st)
      as [(object & buf & path & st1 & Ho & Hb & Hs & Hw) | Hno].
    + rewrite (printReceipt_submitted _ _ _ _ _ _ Ho Hb Hs Hw). cbn [fst snd heap].
      destruct (runCommand os _); [discriminate | intros _].
      exact (Hsub _ _ _ _ Ho Hb Hs Hw).
    + intros _. exact (proj1 (proj2 (printReceipt_not_submitted _ _ Hno))).
  - intros object buf path st1 Ho Hb Hs Hw.
    rewrite (printReceipt_submitted _ _ _ _ _ _ Ho Hb Hs Hw). cbn [fst snd].
    unfold printerAt in *. cbn [heap].
    destruct (runCommand os _); (split; [reflexivity|]).
    + rewrite list_lookup_alter_eq, (Hsub _ _ _ _ Ho Hb Hs Hw), Ho. reflexivity.
    + now rewrite (Hsub _ _ _ _ Ho Hb Hs Hw).
Qed.

(** C6, as the code has it: once the buffer is staged, the call tries to
    remove the staged file whatever the submission did.  When the removal
    succeeds the file is gone after the call; when the removal fails, the
    failure is swallowed and the staged file stays, and the completion of
    the call is the same in both cases.  No other file is touched. *)
Theorem staged_file_removal (printer : nat) (object : Printer) (st st1 : State)
    (buf : list PrinterOp) (scriptPath : jsstring) :
  printerAt st printer = Some object ->
  buffer object = Some buf ->
  ensureRawPrintScript os st = (Returned scriptPath, st1) ->
  writeError os (tmpBin os) = None ->
  (unlinkError os (tmpBin os) = None ->
     files (snd (printReceipt os printer st)) !! tmpBin os = None) /\
  (forall message, unlinkError os (tmpBin os) = Some message ->
     files (snd (printReceipt os printer st)) !! tmpBin os
       = Some (StagedBuffer buf)) /\
  (forall path, path <> tmpBin os ->
     files (snd (printReceipt os printer st)) !! path = files st1 !! path) /\
  fst (printReceipt os printer st)
    = match runCommand os (spoolCommand scriptPath (tmpBin os) (targetName st)) with
      | ExecOk _ => Returned tt
      | ExecErr message => Thrown (s_printError ++ message)
      end.
Proof.
  intros Ho Hb Hs Hw. rewrite (printReceipt_submitted _ _ _ _ _ _ Ho Hb Hs Hw).
  cbn [fst snd files]. split; [|split; [|split]].
  - intros Hu. rewrite Hu. apply lookup_delete_eq.
  - intros message Hu. rewrite Hu. apply lookup_insert_eq.
  - intros path Hne. destruct (unlinkError os (tmpBin os)).
    + now rewrite lookup_insert_ne.
    + rewrite lookup_delete_ne by congruence. now rewrite lookup_insert_ne.
  - reflexivity.
Qed.

End Spooler.

(** ** Discovery and the connection *)
Section Connection.

Variable rt : Runtime.
Variable os : Host.

Lemma querySewooPrinter_result (fields : list jsstring) (index : nat)
    (clean : bool) (st st' : State) :
  fst (querySewooPrinter rt os fields index clean st)
  = fst (querySewooPrinter rt os fields index clean st').
Proof.
  unfold querySewooPrinter, execSync.
  destruct (runCommand os (wmicCommand fields)); reflexivity.
Qed.

Lemma querySewooPrinter_state (fields : list jsstring) (index : nat)
    (clean : bool) (st : State) :
  snd (querySewooPrinter rt os fields index clean st)
  = {| printerInstance := printerInstance st;
       heap := heap st;
       sewooPrinterName := sewooPrinterName st;
       rawPrintScriptPath := rawPrintScriptPath st;
       files := files st;
       spawned := spawned st ++ [wmicCommand fields];
       jobs := jobs st |}.
Proof.
  unfold querySewooPrinter, execSync.
  destruct (runCommand os (wmicCommand fields)); reflexivity.
Qed.

(** A discovered value is never the empty string. *)
Lemma querySewooPrinter_nonempty (fields : list jsstring) (index : nat)
    (clean : bool) (st : State) (value : jsstring) :
  fst (querySewooPrinter rt os fields index clean st) = Some value -> value <> [].
Proof.
  unfold querySewooPrinter, execSync, extractColumn.
  destruct (runCommand os (wmicCommand fields)) as [result|]; cbn [fst];
    [|discriminate].
  destruct (List.find _ _) as [line|]; [|discriminate].
  destruct (nth_error _ _) as [column|]; [|discriminate].
  destruct (if clean then _ else _); [discriminate|].
  intros H. inversion H. discriminate.
Qed.

(** The first resolution creates one printer object, at the end of the
    heap, for the discovered port or LPT1, and caches its reference. *)
Lemma initPrinter_first (st : State) :
  printerInstance st = None ->
  fst (initPrinter rt os st) = length (heap st) /\
  heap (snd (initPrinter rt os st))
    = heap st ++ [ newThermalPrinter
                     (s_devicePrefix ++ default s_LPT1 (fst (findPrinterPort rt os st))) ] /\
  printerInstance (snd (initPrinter rt os st)) = Some (fst (initPrinter rt os st)) /\
  sewooPrinterName (snd (initPrinter rt os st)) = fst (findPrinterName rt os st) /\
  spawned (snd (initPrinter rt os st))
    = spawned st ++ [ wmicCommand [lit "Name"; lit "PortName"];
                      wmicCommand [lit "Name"] ] /\
  jobs (snd (initPrinter rt os st)) = jobs st.
Proof.
  intros Hnone. unfold initPrinter. rewrite Hnone.
  unfold findPrinterPort, findPrinterName.
  destruct (querySewooPrinter rt os [lit "Name"; lit "PortName"] 2 true st)
    as [port st1] eqn:Hport.
  destruct (querySewooPrinter rt os [lit "Name"] 1 false st1)
    as [name st2] eqn:Hname.
  cbn [fst snd heap printerInstance sewooPrinterName spawned jobs].
  assert (Hst1 : st1 = snd (querySewooPrinter rt os [lit "Name"; lit "PortName"] 2 true st))
    by now rewrite Hport.
  assert (Hst2 : st2 = snd (querySewooPrinter rt os [lit "Name"] 1 false st1))
    by now rewrite Hname.
  assert (Hn : name = fst (querySewooPrinter rt os [lit "Name"] 1 false st)).
  { rewrite (querySewooPrinter_result _ _ _ st st1), Hname. reflexivity. }
  rewrite querySewooPrinter_state in Hst1, Hst2.
  rewrite Hst2, Hst1. cbn [heap spawned jobs].
  split; [reflexivity|]. split; [destruct port; reflexivity|].
  split; [reflexivity|]. split; [exact Hn|].
  split; [now rewrite <- app_assoc | reflexivity].
Qed.

(** The object behind the reference that the first resolution returns. *)
Lemma initPrinter_object (st : State) :
  printerInstance st = None ->
  printerAt (snd (initPrinter rt os st)) (fst (initPrinter rt os st))
    = Some (newThermalPrinter
              (s_devicePrefix ++ default s_LPT1 (fst (findPrinterPort rt os st)))).
Proof.
  intros Hnone. destruct (initPrinter_first st Hnone) as (Hr & Hh & _).
  unfold printerAt. rewrite Hh, Hr. now apply list_lookup_middle.
Qed.

(** C7, as the code has it.  On first resolution the device path of the
    printer object is the discovered port, and LPT1 exactly when no port
    was discovered, whatever became of the device name; the device name
    is what Discovery found.  When no name was found, a print attempt that
    reaches the spooler submits to the hard-coded name SEWOO SLK-TS 100;
    when a name was found, it submits to that name, whatever became of
    the port. *)
Theorem initPrinter_fallbacks (st : State) :
  printerInstance st = None ->
  (fst (findPrinterPort rt os st) = None ->
     interface <$> printerAt (snd (initPrinter rt os st)) (fst (initPrinter rt os st))
       = Some (lit "\\.\LPT1")) /\
  (forall port, fst (findPrinterPort rt os st) = Some port ->
     interface <$> printerAt (snd (initPrinter rt os st)) (fst (initPrinter rt os st))
       = Some (lit "\\.\" ++ port)) /\
  sewooPrinterName (snd (initPrinter rt os st)) = fst (findPrinterName rt os st) /\
  (forall printer object buf scriptPath st1,
     printerAt (snd (initPrinter rt os st)) printer = Some object ->
     buffer object = Some buf ->
     ensureRawPrintScript os (snd (initPrinter rt os st)) = (Returned scriptPath, st1) ->
     writeError os (tmpBin os) = None ->
     last (spawned (snd (printReceipt os printer (snd (initPrinter rt os st)))))
       = Some (spoolCommand scriptPath (tmpBin os)
                 (default (lit "SEWOO SLK-TS 100") (fst (findPrinterName rt os st))))).
Proof.
  intros Hnone.
  pose proof (initPrinter_object st Hnone) as Hobj.
  destruct (initPrinter_first st Hnone) as (_ & _ & _ & Hname & _).
  split; [|split; [|split]].
  - intros Hport. rewrite Hobj, Hport. reflexivity.
  - intros port Hport. rewrite Hobj, Hport. reflexivity.
  - exact Hname.
  - intros printer object buf scriptPath st1 Ho Hb Hs Hw.
    rewrite (printReceipt_submitted _ _ _ _ _ _ _ Ho Hb Hs Hw).
    cbn [snd spawned]. rewrite last_snoc. f_equal. f_equal.
    unfold targetName. rewrite Hname.
    destruct (fst (findPrinterName rt os st)) as [[|c n]|] eqn:Hfound;
      try reflexivity.
    exfalso. now apply (querySewooPrinter_nonempty _ _ _ _ _ Hfound).
Qed.

End Connection.

(** ** Concrete receipts *)

(** Midnight with a minute, and nine o'clock without one. *)
Lemma scheduled_by_hour_alone_witness :
  bannerLines initialStyle
    (receiptScript sampleRuntime (with_schedule sampleOrder (JVal 0) (JVal 30)))
    = [ lit "** 00:30 예약배달 **" ] /\
  bannerLines initialStyle
    (receiptScript sampleRuntime (with_schedule sampleOrder (JVal 9) JUndefined))
    = [ lit "** 09:00 예약배달 **" ].
Proof.
  split.
  - apply (proj1 (proj2 (proj2 (proj2
      (scheduled_by_hour_alone sampleRuntime initialStyle
         (with_schedule sampleOrder (JVal 0) (JVal 30))))))).
    reflexivity.
  - apply (proj2 (proj2 (proj2 (proj2
      (scheduled_by_hour_alone sampleRuntime initialStyle
         (with_schedule sampleOrder (JVal 9) JUndefined)))))); reflexivity.
Defined.

(** 20,000 of products and 3,000 of delivery print 23,000. *)
Lemma grand_total_computed_witness :
  totalLines initialStyle (receiptScript sampleRuntime sampleOrder)
    = [ lit "합계:   23,000원" ].
Proof.
  rewrite (proj1 (grand_total_computed sampleRuntime initialStyle sampleOrder)). reflexivity.
Defined.


(** The row of two boxes of apples for 20,000: the unit price is 10000
    and the quantity field reads two spaces and the digit 2. *)
Lemma item_row_fields_witness :
  0 < quantity applesItem /\
  amount applesItem mod quantity applesItem = 0 /\
  unitPrice applesItem = NInt 10000 /\
  qtyField applesItem = lit "  2" /\
  itemRow sampleRuntime applesItem = lit "사과세트        2 10,000  20,000".
Proof.
  split; [reflexivity|]. split; [reflexivity|].
  split; [|split; [reflexivity|]].
  - apply (proj2 (proj2 (proj2 (proj2 (proj2 (proj2 (proj2 (proj2
      (item_row_fields sampleRuntime applesItem))))))))); reflexivity.
  - rewrite (proj1 (item_row_fields sampleRuntime applesItem)). reflexivity.
Defined.

(** C2, as stated, fails: a name of fifteen letters is wider than 14 cells,
    and its name field is not the prefix of seven characters alone but the
    prefix followed by seven spaces. *)
Lemma name_prefix_counterexample :
  14 < visualWidth (productName longItem) /\
  nameField longItem = lit "ABCDEFG       " /\
  nameField longItem <> substring0 7 (productName longItem).
Proof. repeat split. vm_compute. congruence. Qed.

(** The sample document carries its delivery time, 18:30, and no
    schedule: it prints the plain line alone.  Scheduled for 15:05, it
    prints the banner alone. *)
Lemma delivery_lines_exclusive_witness :
  notNull (deliveryHour sampleOrder) = true /\
  notNull (deliveryMinute sampleOrder) = true /\
  isScheduled sampleOrder = false /\
  plainDeliveryLines initialStyle (receiptScript sampleRuntime sampleOrder)
    = [ lit "배달예정: 18:30" ] /\
  bannerLines initialStyle (receiptScript sampleRuntime sampleOrder) = [] /\
  bannerLines initialStyle
    (receiptScript sampleRuntime (with_schedule sampleOrder (JVal 15) (JVal 5)))
    = [ lit "** 15:05 예약배달 **" ] /\
  plainDeliveryLines initialStyle
    (receiptScript sampleRuntime (with_schedule sampleOrder (JVal 15) (JVal 5))) = [].
Proof.
  split; [reflexivity|]. split; [reflexivity|]. split; [reflexivity|].
  pose proof (proj2 (proj2 (proj2 (proj2
    (delivery_lines_exclusive sampleRuntime initialStyle sampleOrder
       eq_refl eq_refl))))
    eq_refl eq_refl eq_refl) as (Hplain & _ & Hbanner).
  pose proof (proj1 (proj2 (proj2 (proj2
    (delivery_lines_exclusive sampleRuntime initialStyle
       (with_schedule sampleOrder (JVal 15) (JVal 5)) eq_refl eq_refl))))
    eq_refl eq_refl) as (Hbanner' & _ & Hplain').
  split; [exact Hplain|]. split; [exact Hbanner|].
  split; [exact Hbanner' | exact Hplain'].
Defined.

(** ** Concrete print attempts *)

(** On a healthy host the loaded printer prints and its buffer is cleared
    down to the code-page command; on a host whose spooler times out the
    call throws the print error with the message of the timeout and the
    printer object keeps the receipt. *)
Lemma printReceipt_clears_on_success_only_witness :
  buffer <$> printerAt (snd (printReceipt healthyHost 0 loadedState)) 0
    = Some (Some [SetCharacterSet]) /\
  heap (snd (printReceipt rejectingHost 0 loadedState)) = [loadedPrinter] /\
  fst (printReceipt rejectingHost 0 loadedState)
    = Thrown (s_printError ++ s_timeout).
Proof.
  split; [|split].
  - apply (proj1 (printReceipt_clears_on_success_only healthyHost 0 loadedState)).
    vm_compute. reflexivity.
  - apply (proj1 (proj2
      (printReceipt_clears_on_success_only rejectingHost 0 loadedState))
      (s_printError ++ s_timeout)).
    vm_compute. reflexivity.
  - pose proof (proj2 (proj2
      (printReceipt_clears_on_success_only rejectingHost 0 loadedState))
      _ _ _ _ eq_refl eq_refl eq_refl eq_refl) as H.
    exact (proj1 H).
Defined.

(** On a healthy host no staged file is left. *)
Lemma staged_file_removal_witness :
  printerAt loadedState 0 = Some loadedPrinter /\
  buffer loadedPrinter
    = Some (SetCharacterSet :: receiptScript sampleRuntime sampleOrder) /\
  fst (ensureRawPrintScript healthyHost loadedState)
    = Returned (lit "C:\Temp\onuljang-raw-print.ps1") /\
  writeError healthyHost (tmpBin healthyHost) = None /\
  unlinkError healthyHost (tmpBin healthyHost) = None /\
  files (snd (printReceipt healthyHost 0 loadedState))
    !! tmpBin healthyHost = None.
Proof.
  split; [reflexivity|]. split; [reflexivity|]. split; [reflexivity|].
  split; [reflexivity|]. split; [reflexivity|].
  exact (proj1 (staged_file_removal healthyHost 0 loadedPrinter loadedState _ _ _
                  eq_refl eq_refl eq_refl eq_refl) eq_refl).
Defined.

(** C6, as stated, fails: on a host where the submission times out and the
    staged file cannot be removed, the call throws the print error and the
    staged file, receipt-1770829683000.bin, is still on disk. *)
Lemma staged_file_left_counterexample :
  tmpBin lockedFileHost = lit "C:\Temp\receipt-1770829683000.bin" /\
  fst (printReceipt lockedFileHost 0 loadedState)
    = Thrown (s_printError ++ s_timeout) /\
  files (snd (printReceipt lockedFileHost 0 loadedState))
    !! tmpBin lockedFileHost
    = Some (StagedBuffer (SetCharacterSet :: receiptScript sampleRuntime sampleOrder)).
Proof.
  split; [reflexivity|].
  rewrite (printReceipt_submitted lockedFileHost 0 loadedPrinter loadedState _ _ _
             eq_refl eq_refl eq_refl eq_refl).
  split; [reflexivity|]. cbn [snd files lockedFileHost unlinkError].
  apply lookup_insert_eq.
Qed.

(** When every query fails, the device path is LPT1 and the print attempt
    submits to SEWOO SLK-TS 100. *)
Lemma initPrinter_fallbacks_witness :
  printerInstance freshState = None /\
  fst (findPrinterPort sampleRuntime rejectingHost freshState) = None /\
  interface <$> printerAt (snd (initPrinter sampleRuntime rejectingHost freshState))
                  (fst (initPrinter sampleRuntime rejectingHost freshState))
    = Some (lit "\\.\LPT1") /\
  last (spawned (snd (printReceipt rejectingHost
                        (fst (initPrinter sampleRuntime rejectingHost freshState))
                        (snd (initPrinter sampleRuntime rejectingHost freshState)))))
    = Some (spoolCommand (lit "C:\Temp\onuljang-raw-print.ps1")
              (lit "C:\Temp\receipt-1770829683000.bin") (lit "SEWOO SLK-TS 100")).
Proof.
  split; [reflexivity|]. split; [reflexivity|].
  pose proof (initPrinter_fallbacks sampleRuntime rejectingHost freshState eq_refl)
    as (Hport & _ & _ & Hprint).
  split; [exact (Hport eq_refl)|].
  exact (Hprint (fst (initPrinter sampleRuntime rejectingHost freshState))
           _ _ _ _ eq_refl eq_refl eq_refl eq_refl).
Defined.

(** C7, as stated, fails on either mixed outcome of Discovery.  When the
    port is found and the name is not, the device path is the found port,
    not LPT1.  When the name is found and the port is not, the name is kept
    and the print attempt submits to it, not to the default name. *)
Lemma discovery_mixed_counterexample :
  (fst (findPrinterName sampleRuntime portOnlyHost freshState) = None /\
   interface <$> printerAt (snd (initPrinter sampleRuntime portOnlyHost freshState))
                   (fst (initPrinter sampleRuntime portOnlyHost freshState))
     = Some (lit "\\.\USB001") /\
   interface <$> printerAt (snd (initPrinter sampleRuntime portOnlyHost freshState))
                   (fst (initPrinter sampleRuntime portOnlyHost freshState))
     <> Some (lit "\\.\LPT1")) /\
  (fst (findPrinterPort sampleRuntime nameOnlyHost freshState) = None /\
   sewooPrinterName (snd (initPrinter sampleRuntime nameOnlyHost freshState))
     = Some (lit "SEWOO LK-T210") /\
   last (spawned (snd (printReceipt nameOnlyHost
                         (fst (initPrinter sampleRuntime nameOnlyHost freshState))
                         (snd (initPrinter sampleRuntime nameOnlyHost freshState)))))
     = Some (spoolCommand (lit "C:\Temp\onuljang-raw-print.ps1")
               (lit "C:\Temp\receipt-1770829683000.bin") (lit "SEWOO LK-T210"))).
Proof.
  split; split; try split; try (vm_compute; congruence).
Qed.

(** * Further properties of the code *)

(** ** The layout engine, beyond the budget *)
Section LayoutMore.

Lemma alignText_unchanged (text align : jsstring) (width : Z) :
  width <= visualWidth text -> alignText text align width = text.
Proof.
  intros Hw. unfold alignText. rewrite actualWidth_visualWidth.
  destruct (Z.leb_spec width (visualWidth text)); [reflexivity | lia].
Qed.

Lemma alignText_reaches (text align : jsstring) (width : Z) :
  width <= visualWidth (alignText text align width).
Proof.
  destruct (Z.le_gt_cases width (visualWidth text)) as [Hle|Hlt].
  - now rewrite alignText_unchanged.
  - unfold alignText. rewrite actualWidth_visualWidth.
    destruct (Z.leb_spec width (visualWidth text)); [lia|].
    assert (Hp : 0 < width - visualWidth text) by lia.
    destruct (half_bounds _ Hp) as [Hl Hr].
    repeat case_bool_decide;
      rewrite ?visualWidth_app, ?visualWidth_spaces by lia; lia.
Qed.

(** Aligning twice is aligning once: what [alignText] returns is, in the
    same budget and under any mode, returned unchanged. *)
Theorem alignText_idempotent (text align align' : jsstring) (width : Z) :
  alignText (alignText text align width) align' width = alignText text align width.
Proof. apply alignText_unchanged, alignText_reaches. Qed.

(** A row with an empty value is the label aligned left, and a row with an
    empty label is the value aligned right, in every budget. *)
Theorem formatRow_is_alignText (text : jsstring) (width : Z) :
  formatRow text [] width = alignText text s_left width /\
  formatRow [] text width = alignText text s_right width.
Proof.
  unfold formatRow, alignText. rewrite actualWidth_visualWidth, !width_sum.
  change (visualWidth []) with 0. rewrite Z.sub_0_r.
  replace (width - 0 - visualWidth text) with (width - visualWidth text) by lia.
  destruct (Z.leb_spec width (visualWidth text)) as [Hle|Hlt].
  - rewrite Z.max_l by lia. split; [apply app_nil_r | reflexivity].
  - rewrite Z.max_r by lia. split; [now rewrite app_nil_r | reflexivity].
Qed.

(** The text of [formatPrice] is one cell wider than its plain length: when
    the amount fits the column, the padded price takes [width + 1] cells. *)
Theorem formatPrice_visual_width (amount width : Z) :
  visualWidth (formatPrice amount width)
  = Z.max width (js_length (formatAmount amount)) + 1 /\
  (js_length (formatAmount amount) <= width ->
     js_length (formatPrice amount width) = width /\
     visualWidth (formatPrice amount width) = width + 1).
Proof.
  assert (Hv : visualWidth (formatPrice amount width)
               = Z.max width (js_length (formatAmount amount)) + 1).
  { unfold formatPrice.
    rewrite visualWidth_app, visualWidth_spaces by lia.
    rewrite visualWidth_formatAmount, js_length_formatAmount. lia. }
  split; [exact Hv|]. intros Hfit. split.
  - unfold formatPrice. rewrite js_length_app, js_length_spaces by lia. lia.
  - rewrite Hv. lia.
Qed.

Lemma formatPrice_visual_width_witness :
  js_length (formatAmount 15900) <= 15 /\
  js_length (formatPrice 15900 15) = 15 /\
  visualWidth (formatPrice 15900 15) = 16.
Proof.
  split; [vm_compute; discriminate|].
  apply (proj2 (formatPrice_visual_width 15900 15)).
  vm_compute. discriminate.
Defined.

End LayoutMore.

(** ** The rows and the script of a receipt *)
Section ReceiptMore.

Variable rt : Runtime.

Lemma nameField_cells (item : LineItem) : visualWidth (nameField item) = 14.
Proof.
  unfold nameField, truncatedName. rewrite !width_sum.
  set (name := if 14 <? visualWidth (productName item)
               then substring0 7 (productName item) else productName item).
  assert (Hn : visualWidth name <= 14).
  { unfold name. destruct (Z.ltb_spec 14 (visualWidth (productName item)));
      [apply visualWidth_prefix7 | lia]. }
  rewrite visualWidth_app, visualWidth_spaces by lia. lia.
Qed.

Lemma numeric_plain (s : jsstring) :
  Forall isNumeric s -> visualWidth s = js_length s.
Proof.
  intros H. apply visualWidth_plain.
  eapply List.Forall_impl; [|exact H]. intros c Hc. now apply numeric_not_korean.
Qed.

Lemma visualWidth_padStart (n : Z) (s : jsstring) :
  Forall isNumeric s -> visualWidth (padStart n 32 s) = Z.max n (js_length s).
Proof.
  intros H. rewrite padStart_spaces, visualWidth_app, (numeric_plain s H).
  pose proof (js_length_nonneg s).
  destruct (Z.le_gt_cases n (js_length s)).
  - rewrite spaces_nonpos by lia. change (visualWidth []) with 0. lia.
  - rewrite visualWidth_spaces by lia. lia.
Qed.

(** When a positive quantity divides the amount, an item row is as wide as
    its four columns: 14 cells of name, and the quantity, the unit price
    and the amount in at least 3, 7 and 8 cells.  The row is never narrower
    than the 32 cells of the paper, and wider exactly by what the three
    numbers overflow. *)
Theorem itemRow_width (item : LineItem) :
  0 < quantity item ->
  amount item mod quantity item = 0 ->
  visualWidth (itemRow rt item)
  = 14 + Z.max 3 (js_length (String_int (quantity item)))
       + Z.max 7 (js_length (toLocaleString_int (amount item / quantity item)))
       + Z.max 8 (js_length (toLocaleString_int (amount item))) /\
  32 <= visualWidth (itemRow rt item).
Proof.
  intros Hq Hm.
  assert (Hw : visualWidth (itemRow rt item)
    = 14 + Z.max 3 (js_length (String_int (quantity item)))
         + Z.max 7 (js_length (toLocaleString_int (amount item / quantity item)))
         + Z.max 8 (js_length (toLocaleString_int (amount item)))).
  { unfold itemRow, qtyField, unitField, amtField, unitPrice.
    destruct (js_div_exact _ _ Hq Hm) as [Hdiv _]. rewrite Hdiv.
    cbn [toLocaleString].
    rewrite !visualWidth_app, nameField_cells.
    rewrite !visualWidth_padStart
      by first [apply String_int_numeric | apply toLocaleString_int_numeric].
    lia. }
  split; [exact Hw | rewrite Hw; lia].
Qed.

End ReceiptMore.

(** Two boxes of apples fill the 32 cells; one item of one million, whose
    unit price and amount are nine characters long, takes 35. *)
Lemma itemRow_width_witness :
  visualWidth (itemRow sampleRuntime applesItem) = 32 /\
  visualWidth (itemRow sampleRuntime
    {| productName := lit "수박"; quantity := 1; amount := 1000000 |}) = 35.
Proof.
  split.
  - rewrite (proj1 (itemRow_width sampleRuntime applesItem eq_refl eq_refl)). reflexivity.
  - rewrite (proj1 (itemRow_width sampleRuntime
      {| productName := lit "수박"; quantity := 1; amount := 1000000 |}
      eq_refl eq_refl)). reflexivity.
Defined.


(** ** The script of a receipt as a whole *)
Section ScriptMore.

Variable rt : Runtime.

Lemma printedLines_app (st : Style) (a b : list PrinterOp) :
  printedLines st (a ++ b)
  = printedLines st a ++ printedLines (fold_left applyOp a st) b.
Proof.
  revert st. induction a as [|op a IH]; intros st; [reflexivity|].
  destruct op; cbn [app printedLines fold_left applyOp]; rewrite IH; reflexivity.
Qed.

Lemma fold_applyOp_rows (st : Style) (rows : list LineItem) :
  fold_left applyOp (map (fun item => Println (itemRow rt item)) rows) st = st.
Proof. induction rows as [|item rows IH]; [reflexivity | exact IH]. Qed.

(** Whatever the modes before it, a receipt leaves the printer at the left,
    in normal size and without emphasis. *)
Lemma receiptScript_resets (st : Style) (data : ReceiptData) :
  fold_left applyOp (receiptScript rt data) st = stPlain.
Proof.
  unfold receiptScript. rewrite !fold_left_app. reflexivity.
Qed.

(** Receipts compose: two receipts built into one buffer print the lines
    that each prints alone, the second unaffected by the first, and the
    modes of the printer are reset at the end. *)
Theorem receipts_compose (st st' : Style) (first second : ReceiptData) :
  printedLines st (receiptScript rt first ++ receiptScript rt second)
  = printedLines st (receiptScript rt first)
      ++ printedLines st' (receiptScript rt second) /\
  fold_left applyOp (receiptScript rt first ++ receiptScript rt second) st = stPlain.
Proof.
  split.
  - rewrite printedLines_app, receiptScript_resets, !printedLines_receipt.
    reflexivity.
  - rewrite fold_left_app. apply receiptScript_resets.
Qed.

(** Every receipt ends with three line feeds and the cut, and cuts the
    paper nowhere else, however many items it lists. *)
Theorem receipt_cut_once (data : ReceiptData) :
  exists body : list PrinterOp,
    receiptScript rt data = body ++ [NewLine; NewLine; NewLine; Cut] /\
    ~ In Cut body.
Proof.
  exists (headerBlock ++ scheduledBanner data ++ orderBlock rt data
            ++ customerBlock data ++ addressBlock data ++ itemTable rt data
            ++ subtotalRows rt data ++ grandTotal data).
  split.
  - unfold receiptScript, trailer. now rewrite <- !app_assoc.
  - unfold headerBlock, scheduledBanner, orderBlock, deliveryLine, customerBlock,
      addressBlock, itemTable, subtotalRows, grandTotal.
    rewrite !in_app_iff. cbn [In]. rewrite !in_app_iff, in_map_iff. cbn [In].
    destruct (isScheduled data);
      destruct (notNull (deliveryHour data) && notNull (deliveryMinute data));
      destruct (truthy_str (address2 data)); cbn [In];
      intros H; repeat (destruct H as [H|H]; try discriminate H; try contradiction);
      destruct H as (item & Hitem & _); discriminate Hitem.
Qed.

End ScriptMore.

(** ** Times of day *)
Section Times.

Lemma pad2_digits (z : Z) :
  0 <= z <= 99 -> pad2 (String_int z) = [48 + z / 10; 48 + z mod 10].
Proof.
  intros Hz.
  assert (Hn : exists n : nat, (n < 100)%nat /\ z = Z.of_nat n)
    by (exists (Z.to_nat z); lia).
  destruct Hn as (n & Hn & ->). clear Hz.
  do 100 (destruct n as [|n]; [reflexivity|]). lia.
Qed.

(** For hours and minutes from 0 to 99, the delivery time and the scheduled
    time are the five characters HH:MM with both numbers padded by a zero;
    a missing scheduled minute reads 00. *)
Theorem times_are_two_digits (data : ReceiptData) (hour minute : Z) :
  0 <= hour <= 99 -> 0 <= minute <= 99 ->
  (deliveryHour data = JVal hour -> deliveryMinute data = JVal minute ->
     deliveryTime data
     = [48 + hour / 10; 48 + hour mod 10; 58; 48 + minute / 10; 48 + minute mod 10]) /\
  (scheduledDeliveryHour data = JVal hour ->
     (scheduledDeliveryMinute data = JVal minute ->
        scheduledTime data
        = Some [48 + hour / 10; 48 + hour mod 10; 58;
                48 + minute / 10; 48 + minute mod 10]) /\
     (notNull (scheduledDeliveryMinute data) = false ->
        scheduledTime data = Some [48 + hour / 10; 48 + hour mod 10; 58; 48; 48])).
Proof.
  intros Hh Hm. split.
  - intros H1 H2. unfold deliveryTime. rewrite H1, H2. cbn [String_nullable].
    now rewrite !pad2_digits.
  - intros H1. unfold scheduledTime, isScheduled. rewrite H1.
    cbn [notNull String_nullable]. split; intros H2.
    + rewrite H2. cbn [nullish_or]. now rewrite !pad2_digits.
    + destruct (scheduledDeliveryMinute data); try discriminate H2;
        cbn [nullish_or]; now rewrite pad2_digits.
Qed.

Lemma times_are_two_digits_witness :
  deliveryTime sampleOrder = lit "18:30" /\
  scheduledTime (with_schedule sampleOrder (JVal 9) JUndefined) = Some (lit "09:00").
Proof.
  split.
  - exact (proj1 (times_are_two_digits sampleOrder 18 30
                    ltac:(lia) ltac:(lia)) eq_refl eq_refl).
  - exact (proj2 (proj2 (times_are_two_digits
                    (with_schedule sampleOrder (JVal 9) JUndefined) 9 0
                    ltac:(lia) ltac:(lia)) eq_refl) eq_refl).
Defined.

End Times.

(** ** What Discovery returns *)
Section DiscoveryMore.

Variable rt : Runtime.
Variable os : Host.

Lemma trimStart_suffix (s : jsstring) : exists pre, s = pre ++ trimStart s.
Proof.
  induction s as [|c s [pre IH]]; [now exists []|].
  cbn [trimStart]. destruct (isWhiteSpace c).
  - exists (c :: pre). cbn [app]. now rewrite <- IH.
  - now exists [].
Qed.

Lemma trimStart_head (s : jsstring) (c : Z) :
  head (trimStart s) = Some c -> isWhiteSpace c = false.
Proof.
  induction s as [|d s IH]; [discriminate|].
  cbn [trimStart]. destruct (isWhiteSpace d) eqn:Hd; [exact IH|].
  intros H. inversion H. now subst.
Qed.

Lemma trim_head (s : jsstring) (c : Z) :
  head (trim s) = Some c -> isWhiteSpace c = false.
Proof.
  unfold trim.
  destruct (trimStart_suffix (rev (trimStart s))) as [pre Hpre].
  assert (Ht : trimStart s = rev (trimStart (rev (trimStart s))) ++ rev pre).
  { rewrite <- rev_app_distr, <- Hpre. now rewrite rev_involutive. }
  destruct (rev (trimStart (rev (trimStart s)))) as [|d u]; [discriminate|].
  intros H. inversion H. subst d.
  apply (trimStart_head s). now rewrite Ht.
Qed.

Lemma trim_last (s : jsstring) (c : Z) :
  last (trim s) = Some c -> isWhiteSpace c = false.
Proof.
  unfold trim.
  destruct (trimStart (rev (trimStart s))) as [|d u] eqn:Hu; [discriminate|].
  cbn [rev]. rewrite last_snoc. intros H. inversion H. subst d.
  apply (trimStart_head (rev (trimStart s))). now rewrite Hu.
Qed.

Lemma trimStart_In (s : jsstring) (c : Z) : In c (trimStart s) -> In c s.
Proof.
  destruct (trimStart_suffix s) as [pre Hpre]. intros H.
  rewrite Hpre. apply in_or_app. now right.
Qed.

Lemma trim_In (s : jsstring) (c : Z) : In c (trim s) -> In c s.
Proof.
  unfold trim. intros H. apply in_rev, trimStart_In, in_rev in H.
  now apply trimStart_In.
Qed.

Lemma findPrinterPort_alnum (st : State) (port : jsstring) :
  fst (findPrinterPort rt os st) = Some port ->
  Forall (fun c => isAlphaNum c = true) port.
Proof.
  unfold findPrinterPort, querySewooPrinter, execSync, extractColumn.
  destruct (runCommand os _) as [result|]; cbn [fst]; [|discriminate].
  destruct (List.find _ _) as [line|]; [|discriminate].
  destruct (nth_error _ _) as [column|]; [|discriminate].
  destruct (List.filter isAlphaNum column) as [|c value] eqn:Hf; [discriminate|].
  intros H. inversion H. subst port. rewrite <- Hf.
  apply List.Forall_forall. intros d Hd. now apply filter_In in Hd.
Qed.

(** The device path of a new connection is the prefix of device paths
    followed by a name that is not empty and made of ASCII letters and
    digits only: no colon, space or line ending of the registry output
    reaches the path. *)
Theorem device_path_is_clean (st : State) :
  printerInstance st = None ->
  exists port : jsstring,
    interface <$> printerAt (snd (initPrinter rt os st)) (fst (initPrinter rt os st))
      = Some (lit "\\.\" ++ port) /\
    port <> [] /\
    Forall (fun c => isAlphaNum c = true) port.
Proof.
  intros Hnone. rewrite (initPrinter_object rt os st Hnone).
  destruct (fst (findPrinterPort rt os st)) as [port|] eqn:Hport; cbn [default].
  - exists port. split; [reflexivity|]. split.
    + now apply (querySewooPrinter_nonempty rt os _ _ _ _ _ Hport).
    + now apply (findPrinterPort_alnum st).
  - exists s_LPT1. split; [reflexivity|]. split; [discriminate|].
    repeat constructor.
Qed.

(** A discovered device name is not empty, holds no carriage return, and
    neither starts nor ends with white space. *)
Theorem discovered_name_is_trimmed (st : State) (name : jsstring) :
  fst (findPrinterName rt os st) = Some name ->
  name <> [] /\
  ~ In 13 name /\
  (forall c, head name = Some c -> isWhiteSpace c = false) /\
  (forall c, last name = Some c -> isWhiteSpace c = false).
Proof.
  intros Hname. split; [now apply (querySewooPrinter_nonempty rt os _ _ _ _ _ Hname)|].
  revert Hname.
  unfold findPrinterName, querySewooPrinter, execSync, extractColumn.
  destruct (runCommand os _) as [result|]; cbn [fst]; [|discriminate].
  destruct (List.find _ _) as [line|]; [|discriminate].
  destruct (nth_error _ _) as [column|]; [|discriminate].
  destruct (trim (List.filter (fun c => negb (c =? 13)) column))
    as [|c value] eqn:Ht; [discriminate|].
  intros H. inversion H. subst name. rewrite <- Ht. split; [|split].
  - intros Hin. apply trim_In, filter_In in Hin. destruct Hin as [_ Hin].
    discriminate Hin.
  - apply trim_head.
  - apply trim_last.
Qed.

End DiscoveryMore.

Lemma discovered_name_is_trimmed_witness :
  fst (findPrinterName sampleRuntime healthyHost freshState) = Some (lit "SEWOO LK-T210") /\
  ~ In 13 (lit "SEWOO LK-T210").
Proof.
  split; [reflexivity|].
  exact (proj1 (proj2 (discovered_name_is_trimmed sampleRuntime healthyHost
                         freshState (lit "SEWOO LK-T210") eq_refl))).
Defined.

Lemma device_path_is_clean_witness :
  printerInstance freshState = None /\
  exists port : jsstring,
    interface <$> printerAt (snd (initPrinter sampleRuntime healthyHost freshState))
                    (fst (initPrinter sampleRuntime healthyHost freshState))
      = Some (lit "\\.\" ++ port) /\
    port <> [] /\
    Forall (fun c => isAlphaNum c = true) port.
Proof.
  split; [reflexivity|].
  exact (device_path_is_clean sampleRuntime healthyHost freshState eq_refl).
Defined.

(** ** The connection over time *)
Section ConnectionMore.

Variable rt : Runtime.
Variable os : Host.

Lemma querySewooPrinter_frame (fields : list jsstring) (index : nat)
    (clean : bool) (st : State) :
  printerInstance (snd (querySewooPrinter rt os fields index clean st))
    = printerInstance st /\
  heap (snd (querySewooPrinter rt os fields index clean st)) = heap st /\
  sewooPrinterName (snd (querySewooPrinter rt os fields index clean st))
    = sewooPrinterName st /\
  rawPrintScriptPath (snd (querySewooPrinter rt os fields index clean st))
    = rawPrintScriptPath st /\
  files (snd (querySewooPrinter rt os fields index clean st)) = files st /\
  jobs (snd (querySewooPrinter rt os fields index clean st)) = jobs st.
Proof. rewrite querySewooPrinter_state. repeat split. Qed.

Lemma initPrinter_instance (st : State) :
  printerInstance (snd (initPrinter rt os st)) = Some (fst (initPrinter rt os st)).
Proof.
  destruct (printerInstance st) as [printer|] eqn:Hp.
  - unfold initPrinter. now rewrite Hp.
  - now destruct (initPrinter_first rt os st Hp) as (_ & _ & H & _).
Qed.

Lemma initPrinter_frame (st : State) :
  files (snd (initPrinter rt os st)) = files st /\
  rawPrintScriptPath (snd (initPrinter rt os st)) = rawPrintScriptPath st /\
  jobs (snd (initPrinter rt os st)) = jobs st.
Proof.
  unfold initPrinter. destruct (printerInstance st); [repeat split|].
  unfold findPrinterPort, findPrinterName.
  destruct (querySewooPrinter rt os [lit "Name"; lit "PortName"] 2 true st)
    as [port st1] eqn:H1.
  destruct (querySewooPrinter rt os [lit "Name"] 1 false st1) as [name st2] eqn:H2.
  cbn [snd files rawPrintScriptPath jobs].
  replace st2 with (snd (querySewooPrinter rt os [lit "Name"] 1 false st1))
    by now rewrite H2.
  replace st1 with (snd (querySewooPrinter rt os [lit "Name"; lit "PortName"] 2 true st))
    by now rewrite H1.
  rewrite !querySewooPrinter_state. repeat split.
Qed.

Lemma initPrinter_again (st : State) :
  initPrinter rt os (snd (initPrinter rt os st)) = initPrinter rt os st.
Proof.
  unfold initPrinter at 1. rewrite initPrinter_instance.
  now destruct (initPrinter rt os st).
Qed.

(** The connection is memoized: after a first call, [initPrinter] returns
    the same printer object and leaves the state as it is, running no
    query, whatever the registry would answer by then. *)
Theorem initPrinter_memoized (rt' : Runtime) (os' : Host) (st : State) :
  initPrinter rt' os' (snd (initPrinter rt os st)) = initPrinter rt os st.
Proof.
  unfold initPrinter at 1. rewrite initPrinter_instance.
  now destruct (initPrinter rt os st).
Qed.

(** [closePrinter] is the way back to Discovery: the next [initPrinter]
    runs the two queries again, takes the port and the name that they give
    now, and hands out a new printer object: a reference that denoted
    nothing before, to an object on the port found now whose buffer holds
    what the library puts in the buffer of a new object, the code-page
    command.  The objects handed out before stay as they are, and files
    are not touched. *)
Theorem closePrinter_forces_discovery (st : State) :
  spawned (snd (initPrinter rt os (closePrinter st)))
    = spawned st ++ [ wmicCommand [lit "Name"; lit "PortName"];
                      wmicCommand [lit "Name"] ] /\
  printerAt st (fst (initPrinter rt os (closePrinter st))) = None /\
  printerAt (snd (initPrinter rt os (closePrinter st)))
            (fst (initPrinter rt os (closePrinter st)))
    = Some {| interface :=
                lit "\\.\" ++ default (lit "LPT1") (fst (findPrinterPort rt os st));
              buffer := Some [SetCharacterSet] |} /\
  (forall printer object, printerAt st printer = Some object ->
     printerAt (snd (initPrinter rt os (closePrinter st))) printer = Some object) /\
  sewooPrinterName (snd (initPrinter rt os (closePrinter st)))
    = fst (findPrinterName rt os st) /\
  files (snd (initPrinter rt os (closePrinter st))) = files st.
Proof.
  destruct (initPrinter_first rt os (closePrinter st) eq_refl)
    as (Hr & Hh & _ & Hn & Hs & _).
  pose proof (initPrinter_object rt os (closePrinter st) eq_refl) as Ho.
  cbn [closePrinter heap spawned] in Hr, Hh, Hs.
  split; [exact Hs|]. split.
  { rewrite Hr. unfold printerAt. now apply lookup_ge_None. }
  split.
  { rewrite Ho. unfold findPrinterPort.
    now rewrite (querySewooPrinter_result rt os _ _ _ (closePrinter st) st). }
  split.
  { intros printer object Hobj. unfold printerAt in *. rewrite Hh.
    now apply lookup_app_l_Some. }
  split.
  { rewrite Hn. unfold findPrinterName.
    apply querySewooPrinter_result. }
  apply (initPrinter_frame (closePrinter st)).
Qed.

End ConnectionMore.

(** ** The spooler transport over time *)
Section SpoolerMore.

Variable os : Host.

(** The helper script is written once: after a call that returns, the
    script is on disk at the returned path, the path is remembered, and a
    second call returns the same path and changes nothing. *)
Theorem ensureRawPrintScript_idempotent (st st1 : State) (path : jsstring) :
  ensureRawPrintScript os st = (Returned path, st1) ->
  ensureRawPrintScript os st1 = (Returned path, st1) /\
  existsSync path st1 = true /\
  rawPrintScriptPath st1 = Some path.
Proof.
  unfold ensureRawPrintScript at 1.
  destruct (match rawPrintScriptPath st with
            | Some (c :: p) => if existsSync (c :: p) st then Some (c :: p) else None
            | _ => None
            end) as [cached|] eqn:Hcached.
  - intros H. inversion H. subst cached st1.
    assert (Hc : rawPrintScriptPath st = Some path /\ existsSync path st = true
                 /\ path <> []).
    { destruct (rawPrintScriptPath st) as [[|c p]|]; try discriminate Hcached.
      destruct (existsSync (c :: p) st) eqn:He; [|discriminate Hcached].
      inversion Hcached. repeat split; [exact He | discriminate]. }
    destruct Hc as (Hp & He & Hne).
    split; [|split; assumption].
    unfold ensureRawPrintScript. rewrite Hp.
    destruct path; [contradiction|]. now rewrite He.
  - unfold writeFileSync.
    remember (pathJoin os (tmpdir os) s_scriptName) as P eqn:HP.
    destruct (writeError os P) eqn:Hw; [discriminate|].
    intros H. inversion H. subst path st1. clear H.
    assert (He : existsSync P
      (set_files {| printerInstance := printerInstance st;
                    heap := heap st;
                    sewooPrinterName := sewooPrinterName st;
                    rawPrintScriptPath := Some P;
                    files := files st;
                    spawned := spawned st;
                    jobs := jobs st |}
         (<[P := RawPrintScript]> (files st))) = true).
    { unfold existsSync, set_files. cbn [files]. now rewrite lookup_insert_eq. }
    split; [|split; [exact He | reflexivity]].
    set (ST1 := set_files _ _) in *.
    assert (Hr : rawPrintScriptPath ST1 = Some P) by reflexivity.
    unfold ensureRawPrintScript. rewrite <- HP, Hr. destruct P as [|c p].
    + unfold writeFileSync. rewrite Hw. f_equal.
      unfold ST1, set_files.
      cbn [files printerInstance heap sewooPrinterName spawned
           rawPrintScriptPath jobs].
      now rewrite insert_insert_eq.
    + rewrite He. reflexivity.
Qed.

(** After a print that returned, the reference denotes an object whose
    buffer is the cleared one. *)
Lemma printReceipt_returned_cleared (printer : nat) (st : State) :
  fst (printReceipt os printer st) = Returned tt ->
  exists object,
    printerAt (snd (printReceipt os printer st)) printer = Some object /\
    buffer object = Some prelude.
Proof.
  destruct (printReceipt_cases os printer st)
    as [(object & buf & path & st1 & Ho & Hb & Hs & Hw) | Hno].
  - rewrite (printReceipt_submitted _ _ _ _ _ _ _ Ho Hb Hs Hw). cbn [fst snd].
    destruct (runCommand os _); [intros _ | discriminate].
    exists (printer_clear object). split; [|reflexivity].
    unfold printerAt in *. cbn [heap]. rewrite list_lookup_alter_eq.
    destruct (ensureRawPrintScript_frame os st) as (_ & Hh & _).
    rewrite Hs in Hh. cbn [snd] in Hh. now rewrite Hh, Ho.
  - destruct (printReceipt_not_submitted _ _ _ Hno) as ((message & Hc) & _).
    rewrite Hc. discriminate.
Qed.

Lemma printReceipt_frame (printer : nat) (st : State) :
  printerInstance (snd (printReceipt os printer st)) = printerInstance st /\
  sewooPrinterName (snd (printReceipt os printer st)) = sewooPrinterName st.
Proof.
  destruct (printReceipt_cases os printer st)
    as [(object & buf & path & st1 & Ho & Hb & Hs & Hw) | Hno].
  - rewrite (printReceipt_submitted _ _ _ _ _ _ _ Ho Hb Hs Hw).
    cbn [snd printerInstance sewooPrinterName].
    destruct (ensureRawPrintScript_frame os st) as (Hi & _ & Hn & _).
    rewrite Hs in Hi, Hn. split; assumption.
  - destruct (printReceipt_not_submitted _ _ _ Hno) as (_ & _ & Hi & Hn & _).
    split; assumption.
Qed.

(** The guard against an empty buffer does not stop a second print.  A
    print that returned has cleared the buffer down to the code-page
    command, which is not [null]: a second print of the same printer
    object, on any host on which the script and the staged file can be
    written, is not refused for want of data.  It runs the spooler once
    more, and what it submits is the code-page command alone: nothing of
    the receipt printed before is sent again. *)
Theorem cleared_buffer_is_submitted_again (os' : Host) (printer : nat)
    (st st1 : State) (scriptPath : jsstring) :
  fst (printReceipt os printer st) = Returned tt ->
  ensureRawPrintScript os' (snd (printReceipt os printer st))
    = (Returned scriptPath, st1) ->
  writeError os' (tmpBin os') = None ->
  fst (printReceipt os' printer (snd (printReceipt os printer st)))
    = match runCommand os' (spoolCommand scriptPath (tmpBin os') (targetName st)) with
      | ExecOk _ => Returned tt
      | ExecErr message => Thrown (s_printError ++ message)
      end /\
  fst (printReceipt os' printer (snd (printReceipt os printer st)))
    <> Thrown s_noData /\
  jobs (snd (printReceipt os' printer (snd (printReceipt os printer st))))
    = jobs (snd (printReceipt os printer st)) ++ [Some (StagedBuffer [SetCharacterSet])] /\
  spawned (snd (printReceipt os' printer (snd (printReceipt os printer st))))
    = spawned (snd (printReceipt os printer st))
        ++ [spoolCommand scriptPath (tmpBin os') (targetName st)].
Proof.
  intros Hret Hs Hw.
  destruct (printReceipt_returned_cleared printer st Hret) as (object & Ho & Hb).
  rewrite (printReceipt_submitted os' _ _ _ _ _ _ Ho Hb Hs Hw).
  cbn [fst snd jobs spawned].
  assert (Hname : targetName (snd (printReceipt os printer st)) = targetName st).
  { unfold targetName. now rewrite (proj2 (printReceipt_frame printer st)). }
  rewrite Hname.
  destruct (ensureRawPrintScript_frame os' (snd (printReceipt os printer st)))
    as (_ & _ & _ & Hsp & Hj).
  rewrite Hs in Hsp, Hj. cbn [snd] in Hsp, Hj. rewrite Hsp, Hj.
  split; [reflexivity|]. split; [|split; reflexivity].
  destruct (runCommand os' _); [discriminate|].
  unfold s_printError, s_noData. cbn [app]. discriminate.
Qed.

(** One attempt, one submission: a call of [printReceipt] hands at most
    one command to the system, exactly one when it returns, and a failure
    is never followed by a second submission.  The call binds neither the
    cached instance nor the device name anew.  What changes is the object
    behind the reference: it is cleared when the call returns, and no
    object changes when the call throws; so a cached instance that is the
    printer passed is cleared with it. *)
Theorem printReceipt_submits_at_most_once (printer : nat) (st : State) :
  (exists commands : list jsstring,
     spawned (snd (printReceipt os printer st)) = spawned st ++ commands /\
     (length commands <= 1)%nat /\
     (fst (printReceipt os printer st) = Returned tt -> length commands = 1%nat)) /\
  printerInstance (snd (printReceipt os printer st)) = printerInstance st /\
  sewooPrinterName (snd (printReceipt os printer st)) = sewooPrinterName st /\
  heap (snd (printReceipt os printer st))
    = match fst (printReceipt os printer st) with
      | Returned _ => alter printer_clear printer (heap st)
      | Thrown _ => heap st
      end.
Proof.
  destruct (printReceipt_frame printer st) as (Hpi & Hname).
  split; [|split; [exact Hpi | split; [exact Hname|]]].
  - destruct (printReceipt_cases os printer st)
      as [(object & buf & path & st1 & Ho & Hb & Hs & Hw) | Hno].
    + rewrite (printReceipt_submitted _ _ _ _ _ _ _ Ho Hb Hs Hw).
      destruct (ensureRawPrintScript_frame os st) as (_ & _ & _ & Hsp & _).
      rewrite Hs in Hsp. cbn [snd] in Hsp.
      cbn [fst snd spawned]. rewrite Hsp.
      eexists. split; [reflexivity|]. split; [cbn; lia | reflexivity].
    + destruct (printReceipt_not_submitted _ _ _ Hno)
        as ((message & Hc) & _ & _ & _ & Hsp & _).
      exists []. rewrite app_nil_r. split; [exact Hsp|]. split; [cbn; lia|].
      rewrite Hc. discriminate.
  - destruct (printReceipt_cases os printer st)
      as [(object & buf & path & st1 & Ho & Hb & Hs & Hw) | Hno].
    + rewrite (printReceipt_submitted _ _ _ _ _ _ _ Ho Hb Hs Hw).
      destruct (ensureRawPrintScript_frame os st) as (_ & Hh & _).
      rewrite Hs in Hh. cbn [snd] in Hh.
      cbn [fst snd heap]. rewrite Hh.
      destruct (runCommand os _); reflexivity.
    + destruct (printReceipt_not_submitted _ _ _ Hno)
        as ((message & Hc) & Hh & _).
      rewrite Hc. exact Hh.
Qed.

End SpoolerMore.

Lemma ensureRawPrintScript_idempotent_witness :
  fst (ensureRawPrintScript healthyHost freshState)
    = Returned (lit "C:\Temp\onuljang-raw-print.ps1") /\
  ensureRawPrintScript healthyHost (snd (ensureRawPrintScript healthyHost freshState))
    = ensureRawPrintScript healthyHost freshState.
Proof.
  split; [reflexivity|].
  exact (proj1 (ensureRawPrintScript_idempotent healthyHost freshState _ _ eq_refl)).
Defined.

(** The loaded printer prints on the healthy host; printed again at once,
    now on the host whose spooler times out, it is not refused for want of
    data: the spooler is run, with a job of the code-page command alone. *)
Lemma cleared_buffer_is_submitted_again_witness :
  fst (printReceipt healthyHost 0 loadedState) = Returned tt /\
  fst (printReceipt rejectingHost 0 (snd (printReceipt healthyHost 0 loadedState)))
    = Thrown (s_printError ++ s_timeout) /\
  jobs (snd (printReceipt rejectingHost 0 (snd (printReceipt healthyHost 0 loadedState))))
    = [ Some (StagedBuffer (SetCharacterSet :: receiptScript sampleRuntime sampleOrder));
        Some (StagedBuffer [SetCharacterSet]) ].
Proof.
  assert (H : fst (printReceipt healthyHost 0 loadedState) = Returned tt)
    by (vm_compute; reflexivity).
  assert (Hs : ensureRawPrintScript rejectingHost
                 (snd (printReceipt healthyHost 0 loadedState))
               = (Returned (lit "C:\Temp\onuljang-raw-print.ps1"),
                  snd (ensureRawPrintScript rejectingHost
                         (snd (printReceipt healthyHost 0 loadedState)))))
    by (vm_compute; reflexivity).
  split; [exact H|].
  pose proof (cleared_buffer_is_submitted_again healthyHost rejectingHost 0
                loadedState _ _ H Hs eq_refl) as (Hc & _ & Hj & _).
  split.
  - rewrite Hc. vm_compute. reflexivity.
  - rewrite Hj. vm_compute. reflexivity.
Defined.

(** ** The health check *)
Section HealthCheck.

Variable rt : Runtime.
Variable os : Host.

Lemma checkPrinterStatus_frame (st : State) :
  printerInstance (snd (checkPrinterStatus rt os st))
    = Some (fst (initPrinter rt os st)) /\
  heap (snd (checkPrinterStatus rt os st)) = heap (snd (initPrinter rt os st)) /\
  sewooPrinterName (snd (checkPrinterStatus rt os st))
    = sewooPrinterName (snd (initPrinter rt os st)) /\
  rawPrintScriptPath (snd (checkPrinterStatus rt os st)) = rawPrintScriptPath st /\
  files (snd (checkPrinterStatus rt os st)) = files st /\
  jobs (snd (checkPrinterStatus rt os st)) = jobs st.
Proof.
  pose proof (initPrinter_instance rt os st) as Hi.
  destruct (initPrinter_frame rt os st) as (Hf & Hr & Hj).
  unfold checkPrinterStatus.
  destruct (initPrinter rt os st) as [printer st1]. cbn [fst snd] in *.
  destruct (querySewooPrinter rt os [lit "Name"; lit "WorkOffline"] 2 true st1)
    as [offline st2] eqn:H2.
  assert (Hst2 : st2 = snd (querySewooPrinter rt os
                              [lit "Name"; lit "WorkOffline"] 2 true st1))
    by now rewrite H2.
  rewrite querySewooPrinter_state in Hst2.
  assert (Hport : forall st', snd (findPrinterPort rt os st')
    = {| printerInstance := printerInstance st';
         heap := heap st';
         sewooPrinterName := sewooPrinterName st';
         rawPrintScriptPath := rawPrintScriptPath st';
         files := files st';
         spawned := spawned st' ++ [wmicCommand [lit "Name"; lit "PortName"]];
         jobs := jobs st' |})
    by (intros st'; apply querySewooPrinter_state).
  destruct offline as [[|c flag]|];
    try (specialize (Hport st2); destruct (findPrinterPort rt os st2) as [port st3];
         cbn [snd] in *; subst st3);
    subst st2;
    cbn [snd printerInstance heap sewooPrinterName rawPrintScriptPath files jobs];
    repeat split; assumption.
Qed.

(** The health check is conservative and has no side effect on the job:
    when no query of the registry can be run it reports the printer as not
    connected and [/health] answers 503; and in every case it leaves the
    files alone and submits nothing, and the printer object that it
    caches is the one that was cached before, with no object changed. *)
Theorem health_check_is_conservative (st : State) :
  ((forall command, exists message, runCommand os command = ExecErr message) ->
     fst (checkPrinterStatus rt os st) = false /\
     fst (handleHealth rt os st) = 503) /\
  files (snd (checkPrinterStatus rt os st)) = files st /\
  jobs (snd (checkPrinterStatus rt os st)) = jobs st /\
  (forall printer, printerInstance st = Some printer ->
     printerInstance (snd (checkPrinterStatus rt os st)) = Some printer /\
     heap (snd (checkPrinterStatus rt os st)) = heap st).
Proof.
  destruct (checkPrinterStatus_frame st) as (Hi & Hh & _ & _ & Hf & Hj).
  split; [|split; [exact Hf | split; [exact Hj|]]].
  - intros Hfail.
    assert (Hcheck : fst (checkPrinterStatus rt os st) = false).
    { unfold checkPrinterStatus.
      destruct (initPrinter rt os st) as [printer st1].
      unfold findPrinterPort, querySewooPrinter, execSync.
      destruct (Hfail (wmicCommand [lit "Name"; lit "WorkOffline"])) as [m1 H1].
      destruct (Hfail (wmicCommand [lit "Name"; lit "PortName"])) as [m2 H2].
      now rewrite H1, H2. }
    split; [exact Hcheck|]. unfold handleHealth.
    destruct (checkPrinterStatus rt os st) as [online st1]. cbn [fst] in *.
    now subst online.
  - intros printer Hp. rewrite Hi, Hh. unfold initPrinter. now rewrite Hp.
Qed.

End HealthCheck.

Lemma health_check_is_conservative_witness :
  fst (checkPrinterStatus sampleRuntime rejectingHost freshState) = false /\
  fst (handleHealth sampleRuntime rejectingHost freshState) = 503.
Proof.
  apply (proj1 (health_check_is_conservative sampleRuntime rejectingHost freshState)).
  intros command. exists s_timeout. reflexivity.
Defined.

(** ** The print request *)
Section PrintRequest.

Variable rt : Runtime.
Variable os : Host.
Variable env : ServerEnv.

Lemma firstMissing_None (body : PrintBody) :
  firstMissing body = None ->
  notNull (body_deliveryHour body) = true /\
  notNull (body_deliveryMinute body) = true /\
  notNull (body_items body) = true.
Proof.
  unfold firstMissing, requiredFields. cbn [List.find fst snd].
  destruct (notNull (body_orderId body)); [|discriminate].
  destruct (notNull (body_paidAt body)); [|discriminate].
  destruct (notNull (body_deliveryHour body)); [|discriminate].
  destruct (notNull (body_deliveryMinute body)); [|discriminate].
  destruct (notNull (body_buyerName body)); [|discriminate].
  destruct (notNull (body_phone body)); [|discriminate].
  destruct (notNull (body_items body)); [|discriminate].
  intros _. repeat split.
Qed.

(** The request that is let through: the receipt is built in the printer
    object of the connection, and that object is printed. *)
Lemma handlePrint_accepted (body : PrintBody) (st : State)
    (item : LineItem) (rest : list LineItem) :
  firstMissing body = None ->
  body_items body = JVal (ItemArray (item :: rest)) ->
  handlePrint rt os env body st
  = if negb (fst (checkPrinterStatus rt os (snd (initPrinter rt os st))))
    then (ServerError s_notConnected None,
          snd (checkPrinterStatus rt os (snd (initPrinter rt os st))))
    else
      let result :=
        printReceipt os (fst (initPrinter rt os st))
          (on_printer (fst (initPrinter rt os st))
             (fun object => buildReceipt rt object (documentOf body))
             (snd (checkPrinterStatus rt os (snd (initPrinter rt os st))))) in
      (match fst result with
       | Returned _ => PrintDone (nullish_or (body_orderId body) 0)
       | Thrown message =>
           ServerError (s_printFailed ++ message)
             (if development env then Some (stackOf env message) else None)
       end,
       snd result).
Proof.
  intros Hm Hi. unfold handlePrint. rewrite Hm, Hi.
  destruct (initPrinter rt os st) as [printer st1]. cbn [fst snd].
  destruct (checkPrinterStatus rt os st1) as [online st2]. cbn [fst snd].
  destruct online; cbn [negb]; [|reflexivity].
  destruct (printReceipt os printer _) as [completion st4]. cbn [fst snd].
  destruct completion; reflexivity.
Qed.

Lemma handlePrint_accepted_status (body : PrintBody) (st : State)
    (item : LineItem) (rest : list LineItem) :
  firstMissing body = None ->
  body_items body = JVal (ItemArray (item :: rest)) ->
  statusCode (fst (handlePrint rt os env body st)) <> 400.
Proof.
  intros Hm Hi. rewrite (handlePrint_accepted body st item rest Hm Hi).
  destruct (negb _); cbv zeta; cbn [fst statusCode]; [discriminate|].
  destruct (fst (printReceipt _ _ _)); cbn [statusCode]; discriminate.
Qed.

(** A request is refused with 400 exactly when a required field is missing
    or null, or the field of the items is not an array, or is an empty
    array; the answer names the first missing field in the order of the
    list of required fields; and a refused request has no effect at all:
    no query, no job, no change of a printer object. *)
Theorem handlePrint_validation (body : PrintBody) (st : State) :
  (statusCode (fst (handlePrint rt os env body st)) = 400 <->
     firstMissing body <> None \/
     body_items body = JVal NotAnArray \/
     body_items body = JVal (ItemArray [])) /\
  (forall field, firstMissing body = Some field ->
     fst (handlePrint rt os env body st) = BadRequest (s_missingField ++ field)) /\
  (firstMissing body = None ->
   body_items body = JVal NotAnArray \/ body_items body = JVal (ItemArray []) ->
     fst (handlePrint rt os env body st) = BadRequest s_emptyItems) /\
  (statusCode (fst (handlePrint rt os env body st)) = 400 ->
     snd (handlePrint rt os env body st) = st).
Proof.
  destruct (firstMissing body) as [field|] eqn:Hm.
  - unfold handlePrint. rewrite Hm. cbn [fst snd statusCode].
    split; [|split; [|split]].
    + split; [intros _; left; discriminate | reflexivity].
    + intros f Hf. now inversion Hf.
    + discriminate.
    + reflexivity.
  - destruct (firstMissing_None body Hm) as (_ & _ & Hitems).
    destruct (body_items body) as [| |[|[|item rest]]] eqn:Hi;
      try discriminate Hitems.
    + unfold handlePrint. rewrite Hm, Hi. cbn [fst snd statusCode].
      split; [|split; [|split]]; try reflexivity; try discriminate.
      split; [intros _; right; now left | reflexivity].
    + unfold handlePrint. rewrite Hm, Hi. cbn [fst snd statusCode].
      split; [|split; [|split]]; try reflexivity; try discriminate.
      split; [intros _; right; now right | reflexivity].
    + pose proof (handlePrint_accepted_status body st item rest Hm Hi) as Hnot.
      split; [|split; [|split]]; try discriminate.
      * split; [intros H; now destruct Hnot|].
        intros [H | [H | H]]; [now destruct H | discriminate H | discriminate H].
      * intros _ [H | H]; discriminate H.
      * intros H. now destruct Hnot.
Qed.

Lemma buildReceipt_buffer (printer : Printer) (data : ReceiptData) :
  buffer (buildReceipt rt printer data)
    = Some (default [] (buffer printer) ++ receiptScript rt data) /\
  interface (buildReceipt rt printer data) = interface printer.
Proof.
  unfold buildReceipt.
  assert (Hfold : forall ops p,
    buffer (fold_left printer_call ops p)
      = match ops with
        | [] => buffer p
        | _ :: _ => Some (default [] (buffer p) ++ ops)
        end /\
    interface (fold_left printer_call ops p) = interface p).
  { induction ops as [|op ops IH]; intros p; [split; reflexivity|].
    cbn [fold_left]. destruct (IH (printer_call p op)) as [Hb Hi].
    rewrite Hb, Hi. cbn [printer_call buffer interface]. split; [|reflexivity].
    destruct ops as [|op' ops]; destruct (buffer p); simpl;
      rewrite <- ?app_assoc; reflexivity. }
  destruct (Hfold (receiptScript rt data) printer) as [Hb Hi].
  split; [|exact Hi]. rewrite Hb. reflexivity.
Qed.

(** An accepted request while the printer is reported offline is answered
    with the connection failure, and nothing is built: no file is written,
    nothing is submitted, and the printer object of the connection, like
    every other, keeps the buffer it had. *)
Theorem handlePrint_offline (body : PrintBody) (st : State)
    (item : LineItem) (rest : list LineItem) :
  firstMissing body = None ->
  body_items body = JVal (ItemArray (item :: rest)) ->
  fst (checkPrinterStatus rt os (snd (initPrinter rt os st))) = false ->
  fst (handlePrint rt os env body st) = ServerError s_notConnected None /\
  statusCode (fst (handlePrint rt os env body st)) = 500 /\
  files (snd (handlePrint rt os env body st)) = files st /\
  printerInstance (snd (handlePrint rt os env body st))
    = Some (fst (initPrinter rt os st)) /\
  heap (snd (handlePrint rt os env body st)) = heap (snd (initPrinter rt os st)) /\
  jobs (snd (handlePrint rt os env body st)) = jobs st.
Proof.
  intros Hm Hi Hoff. rewrite (handlePrint_accepted body st item rest Hm Hi), Hoff.
  cbn [negb fst snd statusCode].
  destruct (checkPrinterStatus_frame rt os (snd (initPrinter rt os st)))
    as (Hp & Hh & _ & _ & Hf & Hj).
  destruct (initPrinter_frame rt os st) as (Hf' & _ & Hj').
  rewrite initPrinter_again in Hp, Hh.
  split; [reflexivity|]. split; [reflexivity|]. split; [congruence|].
  split; [exact Hp|]. split; [exact Hh | congruence].
Qed.

(** An accepted request that reaches the spooler submits the whole buffer
    of the printer object of the connection: what the object held before
    the request, which is what the library or an earlier failed request
    left in it, followed by the new receipt.  When the submission succeeds
    the answer is 200 with the order number and the buffer is cleared down
    to the code-page command; when it fails with a message, the answer is
    500, its error ends with that message, and the buffer, the new receipt
    included, stays in the printer object for the next request. *)
Theorem handlePrint_outcome (body : PrintBody) (st st3 : State) (object : Printer)
    (item : LineItem) (rest : list LineItem) (scriptPath : jsstring) :
  firstMissing body = None ->
  body_items body = JVal (ItemArray (item :: rest)) ->
  printerAt (snd (initPrinter rt os st)) (fst (initPrinter rt os st)) = Some object ->
  fst (checkPrinterStatus rt os (snd (initPrinter rt os st))) = true ->
  ensureRawPrintScript os (snd (checkPrinterStatus rt os (snd (initPrinter rt os st))))
    = (Returned scriptPath, st3) ->
  writeError os (tmpBin os) = None ->
  jobs (snd (handlePrint rt os env body st))
    = jobs st ++ [ Some (StagedBuffer (default [] (buffer object)
                                       ++ receiptScript rt (documentOf body))) ] /\
  last (spawned (snd (handlePrint rt os env body st)))
    = Some (spoolCommand scriptPath (tmpBin os)
              (targetName (snd (initPrinter rt os st)))) /\
  printerInstance (snd (handlePrint rt os env body st))
    = Some (fst (initPrinter rt os st)) /\
  match runCommand os
          (spoolCommand scriptPath (tmpBin os)
             (targetName (snd (initPrinter rt os st)))) with
  | ExecOk _ =>
      fst (handlePrint rt os env body st)
        = PrintDone (nullish_or (body_orderId body) 0) /\
      buffer <$> printerAt (snd (handlePrint rt os env body st))
                   (fst (initPrinter rt os st))
        = Some (Some [SetCharacterSet])
  | ExecErr message =>
      fst (handlePrint rt os env body st)
        = ServerError (s_printFailed ++ s_printError ++ message)
            (if development env
             then Some (stackOf env (s_printError ++ message)) else None) /\
      buffer <$> printerAt (snd (handlePrint rt os env body st))
                   (fst (initPrinter rt os st))
        = Some (Some (default [] (buffer object)
                      ++ receiptScript rt (documentOf body)))
  end.
Proof.
  intros Hm Hi Hobj Hon Hs Hw.
  rewrite (handlePrint_accepted body st item rest Hm Hi), Hon. cbn [negb]. cbv zeta.
  destruct (checkPrinterStatus_frame rt os (snd (initPrinter rt os st)))
    as (Hp & Hh & Hn & _ & _ & Hj).
  rewrite initPrinter_again in Hp, Hh, Hn.
  destruct (initPrinter_frame rt os st) as (_ & _ & Hj').
  destruct (ensureRawPrintScript_frame os
              (snd (checkPrinterStatus rt os (snd (initPrinter rt os st)))))
    as (Hp3 & Hh3 & _ & _ & Hj3).
  rewrite Hs in Hp3, Hh3, Hj3. cbn [snd] in Hp3, Hh3, Hj3.
  destruct (buildReceipt_buffer object (documentOf body)) as [Hb _].
  set (printer := fst (initPrinter rt os st)) in *.
  set (st2 := snd (checkPrinterStatus rt os (snd (initPrinter rt os st)))) in *.
  set (build := fun object => buildReceipt rt object (documentOf body)).
  assert (Hbuilt : printerAt (on_printer printer build st2) printer
                   = Some (buildReceipt rt object (documentOf body))).
  { unfold printerAt in *. cbn [on_printer heap].
    now rewrite list_lookup_alter_eq, Hh, Hobj. }
  assert (Hscript : ensureRawPrintScript os (on_printer printer build st2)
                    = (Returned scriptPath, on_printer printer build st3)).
  { now rewrite ensureRawPrintScript_on_printer, Hs. }
  rewrite (printReceipt_submitted os _ _ _ _ _ _ Hbuilt Hb Hscript Hw).
  cbn [fst snd jobs spawned printerInstance heap on_printer].
  assert (Hname : targetName (on_printer printer build st2)
                  = targetName (snd (initPrinter rt os st))).
  { unfold targetName. cbn [on_printer sewooPrinterName]. now rewrite Hn. }
  rewrite Hname, last_snoc, Hj3, Hj, Hj', Hp3, Hp.
  split; [reflexivity|]. split; [reflexivity|]. split; [reflexivity|].
  unfold printerAt in *. cbn [heap].
  destruct (runCommand os _) as [out|message]; (split; [reflexivity|]).
  - now rewrite !list_lookup_alter_eq, Hh3, Hh, Hobj.
  - rewrite list_lookup_alter_eq, Hh3, Hh, Hobj. unfold build.
    cbn [fmap option_fmap option_map]. now rewrite Hb.
Qed.

(** A request that passed the validation carries a delivery hour and a
    delivery minute, so its receipt shows exactly one of the two: the
    scheduled-delivery banner when the order is scheduled, the plain
    delivery-time line when it is not. *)
Theorem validated_receipt_has_one_delivery_line (st : Style) (body : PrintBody) :
  firstMissing body = None ->
  (bannerLines st (receiptScript rt (documentOf body)) <> [] <->
     isScheduled (documentOf body) = true) /\
  (plainDeliveryLines st (receiptScript rt (documentOf body)) <> [] <->
     isScheduled (documentOf body) = false) /\
  (bannerLines st (receiptScript rt (documentOf body)) = [] <->
     plainDeliveryLines st (receiptScript rt (documentOf body)) <> []).
Proof.
  intros Hm. destruct (firstMissing_None body Hm) as (Hh & Hmin & _).
  rewrite bannerLines_receipt, plainDeliveryLines_receipt.
  change (deliveryHour (documentOf body)) with (body_deliveryHour body).
  change (deliveryMinute (documentOf body)) with (body_deliveryMinute body).
  rewrite Hh, Hmin. cbn [andb].
  destruct (isScheduled (documentOf body)); repeat split; intros H;
    try congruence; try discriminate.
Qed.

End PrintRequest.

(** ** Concrete requests *)

(** A body without phone number and without delivery fee is refused for the
    phone number, the first of the two in the list, and nothing happens; a
    complete body whose items are a text, not an array, is refused for its
    items. *)
Lemma handlePrint_validation_witness :
  firstMissing incompleteBody = Some (lit "phone") /\
  fst (handlePrint sampleRuntime recoveredHost productionEnv incompleteBody freshState)
    = BadRequest (lit "필수 필드 누락: phone") /\
  snd (handlePrint sampleRuntime recoveredHost productionEnv incompleteBody freshState)
    = freshState /\
  firstMissing malformedBody = None /\
  fst (handlePrint sampleRuntime recoveredHost productionEnv malformedBody freshState)
    = BadRequest s_emptyItems.
Proof.
  pose proof (handlePrint_validation sampleRuntime recoveredHost productionEnv
                incompleteBody freshState) as (_ & Hfield & _ & Hstate).
  pose proof (handlePrint_validation sampleRuntime recoveredHost productionEnv
                malformedBody freshState) as (_ & _ & Hitems & _).
  split; [reflexivity|]. split; [|split; [|split; [reflexivity|]]].
  - exact (Hfield (lit "phone") eq_refl).
  - apply Hstate. rewrite (Hfield (lit "phone") eq_refl). reflexivity.
  - apply Hitems; [reflexivity | left; reflexivity].
Defined.

(** When no query can be run the request is answered with the connection
    failure; no file is written and nothing is submitted. *)
Lemma handlePrint_offline_witness :
  fst (handlePrint sampleRuntime rejectingHost productionEnv sampleBody freshState)
    = ServerError s_notConnected None /\
  files (snd (handlePrint sampleRuntime rejectingHost productionEnv sampleBody freshState))
    = ∅ /\
  jobs (snd (handlePrint sampleRuntime rejectingHost productionEnv sampleBody freshState))
    = [].
Proof.
  pose proof (handlePrint_offline sampleRuntime rejectingHost productionEnv
                sampleBody freshState applesItem [] eq_refl eq_refl eq_refl)
    as (Hr & _ & Hf & _ & _ & Hj).
  split; [exact Hr|]. split; [exact Hf | exact Hj].
Defined.

(** On the jammed host the sample request fails with the message of the
    spooler, having submitted the code-page command and the receipt, which
    stay in the printer object.  The same request on the recovered host
    is answered with 200: it has submitted the code-page command and the
    receipt twice over, and the buffer is cleared. *)
Lemma handlePrint_outcome_witness :
  fst (handlePrint sampleRuntime jammedHost productionEnv sampleBody freshState)
    = ServerError (s_printFailed ++ s_printError ++ s_timeout) None /\
  jobs jammedState
    = [ Some (StagedBuffer
                (SetCharacterSet :: receiptScript sampleRuntime (documentOf sampleBody))) ] /\
  fst (handlePrint sampleRuntime recoveredHost productionEnv sampleBody jammedState)
    = PrintDone 1042 /\
  jobs (snd (handlePrint sampleRuntime recoveredHost productionEnv sampleBody jammedState))
    = [ Some (StagedBuffer
                (SetCharacterSet :: receiptScript sampleRuntime (documentOf sampleBody)));
        Some (StagedBuffer
                (SetCharacterSet :: receiptScript sampleRuntime (documentOf sampleBody)
                   ++ receiptScript sampleRuntime (documentOf sampleBody))) ] /\
  buffer <$> printerAt
               (snd (handlePrint sampleRuntime recoveredHost productionEnv sampleBody
                       jammedState)) 0
    = Some (Some [SetCharacterSet]).
Proof.
  assert (Hs : ensureRawPrintScript jammedHost
                 (snd (checkPrinterStatus sampleRuntime jammedHost
                         (snd (initPrinter sampleRuntime jammedHost freshState))))
               = (Returned (lit "C:\Temp\onuljang-raw-print.ps1"),
                  snd (ensureRawPrintScript jammedHost
                         (snd (checkPrinterStatus sampleRuntime jammedHost
                                 (snd (initPrinter sampleRuntime jammedHost freshState)))))))
    by (vm_compute; reflexivity).
  pose proof (handlePrint_outcome sampleRuntime jammedHost productionEnv
                sampleBody freshState _
                (newThermalPrinter (lit "\\.\USB001")) applesItem [] _
                eq_refl eq_refl eq_refl eq_refl Hs eq_refl) as (Hj & _ & _ & Hjam).
  assert (Ho : printerAt (snd (initPrinter sampleRuntime recoveredHost jammedState))
                 (fst (initPrinter sampleRuntime recoveredHost jammedState))
               = Some (buildReceipt sampleRuntime (newThermalPrinter (lit "\\.\USB001"))
                         (documentOf sampleBody)))
    by (vm_compute; reflexivity).
  assert (Hon : fst (checkPrinterStatus sampleRuntime recoveredHost
                       (snd (initPrinter sampleRuntime recoveredHost jammedState))) = true)
    by (vm_compute; reflexivity).
  assert (Hs' : ensureRawPrintScript recoveredHost
                  (snd (checkPrinterStatus sampleRuntime recoveredHost
                          (snd (initPrinter sampleRuntime recoveredHost jammedState))))
                = (Returned (lit "C:\Temp\onuljang-raw-print.ps1"),
                   snd (ensureRawPrintScript recoveredHost
                          (snd (checkPrinterStatus sampleRuntime recoveredHost
                                  (snd (initPrinter sampleRuntime recoveredHost
                                          jammedState)))))))
    by (vm_compute; reflexivity).
  pose proof (handlePrint_outcome sampleRuntime recoveredHost productionEnv
                sampleBody jammedState _ _ applesItem [] _
                eq_refl eq_refl Ho Hon Hs' eq_refl) as (Hj' & _ & _ & Hok).
  split; [exact (proj1 Hjam)|]. split; [exact Hj|].
  split; [exact (proj1 Hok)|]. split; [|exact (proj2 Hok)].
  rewrite Hj'. vm_compute. reflexivity.
Defined.

(** The sample request is not scheduled: its receipt shows the plain
    delivery-time line and no banner. *)
Lemma validated_receipt_has_one_delivery_line_witness :
  firstMissing sampleBody = None /\
  plainDeliveryLines initialStyle (receiptScript sampleRuntime (documentOf sampleBody))
    <> [].
Proof.
  split; [reflexivity|].
  apply (proj1 (proj2 (validated_receipt_has_one_delivery_line sampleRuntime
                         initialStyle sampleBody eq_refl))).
  reflexivity.
Defined.
